(** * app.py of the data-measurements tool: a shallow embedding

    The script is glue code: it calls an opaque statistics-cache object, the
    logging module, the file system, an e-mail validator, an HTTP client and
    the streamlit toolkit.  The embedding threads a [world] through a small
    state-and-exception monad; every call that leaves the script is recorded
    as an [event], so that statements about "what is called, in which order,
    and what happens when a call raises" become statements about traces.

    What is taken from outside the file:
    - the statistics class is an arbitrary deterministic state machine
      ([Collaborator]); each of its methods may return or raise;
    - [validate_email], [requests.post] and [list_datasets] may return or
      raise; their answers, the constants of [dataset_utils] and the values
      of the page's widgets are collected in [Externals];
    - logging calls, streamlit calls and reads of the attributes of the
      statistics object return;
    - the disk is two sets of paths, directories and regular files, changed
      only by the script's own [mkdir] and [FileHandler]; whether the
      operating system lets a free path be created (its parent may be missing
      or closed to the script) is an answer of the surroundings too
      ([os_refuses]). *)

From stdpp Require Import gmap strings list.

Open Scope string_scope.

(** ** Python data *)

(** The values found in the dataset-arguments and configs dictionaries. *)
Inductive pyval :=
| PStr (s : string)
| PStrs (l : list string)
| PNone.

Abbreviation pydict := (gmap string pyval).

(** [dict(base, **kw)]: the keyword arguments are written over [base]. *)
Definition dict_kw (base kw : pydict) : pydict := kw ∪ base.

(** Exceptions.  Only the class named in an [except] clause of the script is
    told apart; everything else is an [OtherError] carrying its class name. *)
Inductive exn :=
| EmailNotValidError
| OtherError (cls : string).

Inductive result (A : Type) :=
| Returned (a : A)
| Raised (e : exn).
Arguments Returned {A} a.
Arguments Raised {A} e.

Definition raised {A} (r : result A) : bool :=
  match r with Returned _ => false | Raised _ => true end.

(** ** The statistics-cache collaborator *)

(** The [load_or_prepare_*] methods the script calls on the cache object. *)
Inductive lop_method :=
| load_or_prepare_dataset
| load_or_prepare_dset_peek
| load_or_prepare_labels
| load_or_prepare_text_lengths
| load_or_prepare_text_duplicates
| load_or_prepare_vocab
| load_or_prepare_general_stats
| load_or_prepare_embeddings
| load_or_prepare_npmi
| load_or_prepare_zipf.

Global Instance lop_method_eq_dec : EqDecision lop_method.
Proof. solve_decision. Defined.

(** Objects of [DatasetStatisticsCacheClass] are named by the order of their
    construction. *)
Definition handle := nat.

(** [dataset_statistics] is not part of the script: it is an arbitrary
    deterministic state machine over a state [St] of its own (which stands for
    the objects' fields and for whatever the class keeps on disk).  Every
    method may return or raise. *)
Class Collaborator (St : Type) := {
  DatasetStatisticsCacheClass :
    handle → string → pydict → bool → St → result () * St;
  set_deployment : handle → bool → St → result () * St;
  check_cache_dir : handle → St → result bool * St;
  load_or_prepare_call : handle → lop_method → St → result () * St;
  (* attributes read by the script *)
  complete : handle → St → bool;
  dset_name : handle → St → string;
  dset_config : handle → St → string;
  split_name : handle → St → string;
  text_field : handle → St → list string;
}.

Inductive collab_call :=
| CNew (h : handle) (cache_dir : string) (args : pydict) (use_cache : bool)
| CSetDeployment (h : handle) (b : bool)
| CCheckCacheDir (h : handle)
| CLoadOrPrepare (h : handle) (m : lop_method).

(** ** Events *)

Inductive level := INFO | WARNING.

(** The widgets of [streamlit_utils] drawn by [show_column]. *)
Inductive widget :=
| expander_header
| expander_general_stats
| expander_label_distribution
| expander_text_lengths
| expander_text_duplicates
| npmi_widget (min_vocab : nat)
| expander_zipf
| expander_text_embeddings (text_field_name : string).

Inductive event :=
| EvLog (l : level) (msg : string)
| EvLoadDotenv (p : string)
| EvMkdir (p : string) (exc : bool)
| EvOpen (p : string) (exc : bool)
| EvCall (c : collab_call) (exc : bool)
| EvValidate (email : string)
| EvPost (url : option string) (data : pydict)
| EvPageConfig
| EvTitle (s : string)
| EvMarkdown (s : string)
| EvText (s : string)
| EvEmpty
| EvTextInput (label : string)
| EvButton (label : string)
| EvClear
| EvCheckbox (label : string)
| EvSidebarHeader
| EvSidebarSelection (column_id : string)
| EvColumns
| EvEnter (col : nat)
| EvExit (col : nat)
| EvListDatasets
| EvWidget (w : widget) (h : handle) (column_id : string).

(** ** The world *)

Section App.

Context {St : Type} {collab : Collaborator St}.

Record world := World {
  w_dirs : gset string;            (* directories on disk *)
  w_files : gset string;           (* regular files on disk *)
  w_environ : gmap string string;  (* os.environ *)
  w_handlers : bool;               (* the module logger already has handlers *)
  w_next : handle;                 (* name of the next object *)
  w_cache : St;                    (* state of the collaborator *)
}.

Definition set_cache (s : St) (w : world) : world :=
  World (w_dirs w) (w_files w) (w_environ w) (w_handlers w) (w_next w) s.

Definition add_dir (p : string) (w : world) : world :=
  World ({[p]} ∪ w_dirs w) (w_files w) (w_environ w) (w_handlers w) (w_next w)
        (w_cache w).

Definition add_file (p : string) (w : world) : world :=
  World (w_dirs w) ({[p]} ∪ w_files w) (w_environ w) (w_handlers w) (w_next w)
        (w_cache w).

(** ** The monad: state, exceptions and a trace of events *)

Record outcome (A : Type) := Out {
  res : result A;
  final : world;
  trace : list event;
}.
Arguments Out {A} res final trace.
Arguments res {A} o.
Arguments final {A} o.
Arguments trace {A} o.

Definition M (A : Type) : Type := world → outcome A.

(** [o] followed by what [k] does from the world [o] ends in. *)
Definition andthen {A B} (o : outcome A) (k : world → outcome B)
  : outcome B :=
  let o' := k (final o) in Out (res o') (final o') (trace o ++ trace o').

Global Instance M_ret : MRet M := λ A a w, Out (Returned a) w [].

Global Instance M_bind : MBind M := λ A B f m w,
  let o := m w in
  match res o with
  | Returned a => andthen o (f a)
  | Raised e => Out (Raised e) (final o) (trace o)
  end.

Definition gets {A} (f : world → A) : M A := λ w, Out (Returned (f w)) w [].

Definition emit (e : event) : M () := λ w, Out (Returned ()) w [e].

Definition lift {A} (r : result A) : M A := λ w, Out r w [].

(** [try: body / except: handler] -- the bare clause catches everything. *)
Definition try_except {A} (body handler : M A) : M A := λ w,
  let o := body w in
  match res o with
  | Returned _ => o
  | Raised _ => andthen o handler
  end.

(** [try: body / except EmailNotValidError: handler]. *)
Definition try_except_EmailNotValidError {A} (body handler : M A) : M A := λ w,
  let o := body w in
  match res o with
  | Raised EmailNotValidError => andthen o handler
  | _ => o
  end.

Definition when (b : bool) (m : M ()) : M () := if b then m else mret ().

(** ** Primitives *)

Definition logs_warning (msg : string) : M () := emit (EvLog WARNING msg).
Definition logs_info (msg : string) : M () := emit (EvLog INFO msg).

Definition isdir (p : string) : M bool :=
  gets (λ w, bool_decide (p ∈ w_dirs w)).

Definition is_file (p : string) : M bool :=
  gets (λ w, bool_decide (p ∈ w_files w)).

Definition collab_step {A} (c : collab_call) (f : St → result A * St) : M A :=
  λ w, let r := f (w_cache w) in
       Out r.1 (set_cache r.2 w) [EvCall c (raised r.1)].

Definition next_handle : M handle := λ w,
  Out (Returned (w_next w))
      (World (w_dirs w) (w_files w) (w_environ w) (w_handlers w)
             (S (w_next w)) (w_cache w)) [].

Definition new_dstats (cache_dir : string) (args : pydict) (use_cache : bool)
  : M handle :=
  h ← gets w_next;
  collab_step (CNew h cache_dir args use_cache)
    (DatasetStatisticsCacheClass h cache_dir args use_cache);;
  next_handle.

Definition call_set_deployment (h : handle) (b : bool) : M () :=
  collab_step (CSetDeployment h b) (set_deployment h b).

Definition call_check_cache_dir (h : handle) : M bool :=
  collab_step (CCheckCacheDir h) (check_cache_dir h).

Definition call (h : handle) (m : lop_method) : M () :=
  collab_step (CLoadOrPrepare h m) (load_or_prepare_call h m).

Definition attr {A} (f : handle → St → A) (h : handle) : M A :=
  gets (λ w, f h (w_cache w)).

(** ** What the script is given *)

(** Constants of [dataset_utils], the answers of the libraries the script
    calls, and the values the user has put into the page. *)
Record Externals := {
  CACHE_DIR : string;
  OUR_TEXT_FIELD : string;
  dotenv_values : gmap string string;
  validate_email : string → result string;
  requests_post : option string → pydict → result string;
  list_datasets : result (list string);
  text_input : string → string;
  button : string → bool;
  checkbox : string → bool;
  sidebar_selection : list string → string → pydict * pydict;
  (* the class of the [OSError], if any, with which the operating system
     refuses to create or open a path that is free, on a disk with the given
     directories and files: [FileNotFoundError] for a missing parent,
     [PermissionError], ... *)
  os_refuses : gset string → gset string → string → option string;
}.

Context (ext : Externals).

(** [os.mkdir(p)]: raises [FileExistsError] when the path is taken, and the
    error of the operating system when it refuses to create the directory;
    nothing is created then. *)
Definition mkdir (p : string) : M () := λ w,
  if bool_decide (p ∈ w_dirs w) || bool_decide (p ∈ w_files w)
  then Out (Raised (OtherError "FileExistsError")) w [EvMkdir p true]
  else match os_refuses ext (w_dirs w) (w_files w) p with
       | Some cls => Out (Raised (OtherError cls)) w [EvMkdir p true]
       | None => Out (Returned ()) (add_dir p w) [EvMkdir p false]
       end.

(** [Path(p).mkdir(exist_ok=True)]: an existing directory is accepted. *)
Definition Path_mkdir_exist_ok (p : string) : M () := λ w,
  if bool_decide (p ∈ w_dirs w) then Out (Returned ()) w []
  else mkdir p w.

(** [logging.FileHandler(p)] opens [p] for appending, creating it. *)
Definition FileHandler (p : string) : M () := λ w,
  if bool_decide (p ∈ w_dirs w)
  then Out (Raised (OtherError "IsADirectoryError")) w [EvOpen p true]
  else match os_refuses ext (w_dirs w) (w_files w) p with
       | Some cls => Out (Raised (OtherError cls)) w [EvOpen p true]
       | None => Out (Returned ()) (add_file p w) [EvOpen p false]
       end.

Definition st_text_input (label : string) : M string :=
  emit (EvTextInput label);; mret (text_input ext label).

Definition st_button (label : string) : M bool :=
  emit (EvButton label);; mret (button ext label).

Definition st_sidebar_checkbox (label : string) : M bool :=
  emit (EvCheckbox label);; mret (checkbox ext label).

Definition st_sidebar_selection (ds_names : list string) (column_id : string)
  : M (pydict * pydict) :=
  emit (EvSidebarSelection column_id);;
  mret (sidebar_selection ext ds_names column_id).

Definition call_validate_email (email : string) : M string :=
  emit (EvValidate email);; lift (validate_email ext email).

Definition post (url : option string) (data : pydict) : M string :=
  emit (EvPost url data);; lift (requests_post ext url data).

(** [load_dotenv] adds the file's variables without overriding. *)
Definition load_dotenv (p : string) : M () := λ w,
  Out (Returned ())
      (World (w_dirs w) (w_files w) (w_environ w ∪ dotenv_values ext)
             (w_handlers w) (w_next w) (w_cache w))
      [EvLoadDotenv p].

Definition getenv (k : string) : M (option string) :=
  gets (λ w, w_environ w !! k).

Definition logs_handlers : M bool := gets w_handlers.

Definition logs_addHandlers : M () := λ w,
  Out (Returned ())
      (World (w_dirs w) (w_files w) (w_environ w) true (w_next w) (w_cache w))
      [].

(** [with col: body]: the column is left also when [body] raises. *)
Definition with_col {A} (col : nat) (body : M A) : M A := λ w,
  let o := body w in
  Out (res o) (final o) (EvEnter col :: trace o ++ [EvExit col]).

(** ** The script *)

Definition _MIN_VOCAB_COUNT : nat := 10.
Definition _SHOW_TOP_N_WORDS : nat := 10.

Definition load_or_prepare (ds_args : pydict) (show_embeddings use_cache : bool)
  : M handle :=
  d ← isdir (CACHE_DIR ext);
  when (negb d) (logs_warning "Creating cache";; mkdir (CACHE_DIR ext));;
  when use_cache (logs_warning "Using cache");;
  dstats ← new_dstats (CACHE_DIR ext) ds_args use_cache;
  logs_warning "Loading dataset";;
  call dstats load_or_prepare_dataset;;
  logs_warning "Loading labels";;
  call dstats load_or_prepare_labels;;
  logs_warning "Loading text lengths";;
  call dstats load_or_prepare_text_lengths;;
  logs_warning "Loading duplicates";;
  call dstats load_or_prepare_text_duplicates;;
  logs_warning "Loading vocabulary";;
  call dstats load_or_prepare_vocab;;
  logs_warning "Loading general statistics...";;
  call dstats load_or_prepare_general_stats;;
  when show_embeddings
    (logs_warning "Loading Embeddings";;
     call dstats load_or_prepare_embeddings);;
  logs_warning "Loading nPMI";;
  try_except (call dstats load_or_prepare_npmi)
             (logs_warning "Missing a cache for npmi");;
  logs_warning "Loading Zipf";;
  call dstats load_or_prepare_zipf;;
  mret dstats.

Definition load_or_prepare_widgets (ds_args : pydict)
    (show_embeddings use_cache : bool) : M (handle * bool) :=
  when use_cache (logs_warning "Using cache");;
  dstats ← new_dstats (CACHE_DIR ext) ds_args use_cache;
  call_set_deployment dstats true;;
  cache_dir_exists ← call_check_cache_dir dstats;
  when cache_dir_exists
    (try_except (call dstats load_or_prepare_dataset)
       (logs_warning "Missing a cache for load or prepare dataset");;
     try_except (call dstats load_or_prepare_dset_peek)
       (logs_warning "Missing a cache for dset peek");;
     try_except (call dstats load_or_prepare_general_stats)
       (logs_warning "Missing a cache for general stats");;
     try_except (call dstats load_or_prepare_labels)
       (logs_warning "Missing a cache for prepare labels");;
     try_except (call dstats load_or_prepare_text_lengths)
       (logs_warning "Missing a cache for text lengths");;
     when show_embeddings
       (try_except (call dstats load_or_prepare_embeddings)
          (logs_warning "Missing a cache for embeddings"));;
     try_except (call dstats load_or_prepare_text_duplicates)
       (logs_warning "Missing a cache for text duplicates");;
     try_except (call dstats load_or_prepare_npmi)
       (logs_warning "Missing a cache for npmi");;
     try_except (call dstats load_or_prepare_zipf)
       (logs_warning "Missing a cache for zipf"));;
  mret (dstats, cache_dir_exists).

Definition title_str (dstats : handle) (column_id : string) : M string :=
  n ← attr dset_name dstats;
  c ← attr dset_config dstats;
  s ← attr split_name dstats;
  t ← attr text_field dstats;
  mret ("### Showing" ++ column_id ++ ": " ++ n ++ " - " ++ c ++ " - " ++ s
        ++ " - " ++ String.concat "-" t).

Definition show_column (dstats : handle) (ds_configs : pydict)
    (show_embeddings : bool) (column_id : string) : M () :=
  title ← title_str dstats column_id;
  emit (EvMarkdown title);;
  logs_info "showing header";;
  emit (EvWidget expander_header dstats column_id);;
  logs_info "showing general stats";;
  emit (EvWidget expander_general_stats dstats column_id);;
  emit (EvWidget expander_label_distribution dstats column_id);;
  emit (EvWidget expander_text_lengths dstats column_id);;
  emit (EvWidget expander_text_duplicates dstats column_id);;
  logs_info "showing npmi widget";;
  emit (EvWidget (npmi_widget _MIN_VOCAB_COUNT) dstats column_id);;
  logs_info "showing zipf";;
  emit (EvWidget expander_zipf dstats column_id);;
  when show_embeddings
    (emit (EvWidget (expander_text_embeddings (OUR_TEXT_FIELD ext)) dstats
             column_id)).

Definition msg_check_back : string :=
  "Check back later for data measurement results!".
Definition msg_enter_email : string :=
  "We are missing pre-computed data measures for this configuration. Enter your email. Our app will compute the measurements and email you when done!".
Definition msg_computing : string :=
  "Computing metrics! An email will be sent to you."
  ++ String (Ascii.ascii_of_nat 10)
       "This could take a while if the dataset is big.".
Definition msg_problem : string :=
  "Oh no, a problem happened while requesting the data measurements.".
Definition msg_invalid_email : string :=
  "Oh no, that email doesn't seem valid!".

Definition display_or_compute_data_measures (SERVER_URL : option string)
    (cache_exists : bool) (dstats : handle) (show_embeddings : bool)
    (dataset_args ds_configs : pydict) (column_id : string) : M () :=
  if cache_exists then
    c ← attr complete dstats;
    if c : bool then show_column dstats ds_configs show_embeddings column_id
    else emit (EvMarkdown msg_check_back)
  else
    emit EvEmpty;;
    emit EvEmpty;;
    email ← st_text_input msg_enter_email;
    compute ← st_button "Compute Measurements";
    '(valid, email) ←
      try_except_EmailNotValidError
        (v ← call_validate_email email; mret (true, v))
        (mret (false, email));
    if valid : bool then
      when compute
        (result ← post SERVER_URL
                    (dict_kw {["email" := PStr email]} dataset_args);
         emit EvClear;;
         emit EvClear;;
         if bool_decide (result = "success")
         then emit (EvText msg_computing)
         else emit (EvText msg_problem))
    else
      when (bool_decide (email ≠ "") || compute)
        (emit (EvText msg_invalid_email)).

Definition list_datasets_wrapper : M (list string) :=
  emit EvListDatasets;; lift (list_datasets ext).

Definition main (SERVER_URL : option string) : M () :=
  ds_names ← list_datasets_wrapper;
  emit (EvTitle "Data Measurements Tool");;
  emit EvSidebarHeader;;
  compare_mode ← st_sidebar_checkbox "Comparison mode";
  let use_cache := true in
  show_embeddings ← st_sidebar_checkbox "Show text clusters";
  if compare_mode : bool then
    logs_warning "Using Comparison Mode";;
    '(dataset_args_left, ds_configs_left) ←
      st_sidebar_selection ds_names " A";
    '(dataset_args_right, ds_configs_right) ←
      st_sidebar_selection ds_names " B";
    emit EvColumns;;
    '(dstats_left, cache_exists_left) ←
      load_or_prepare_widgets dataset_args_left show_embeddings use_cache;
    with_col 0
      (display_or_compute_data_measures SERVER_URL cache_exists_left dstats_left
         show_embeddings dataset_args_left ds_configs_left " A");;
    '(dstats_right, cache_exists_right) ←
      load_or_prepare_widgets dataset_args_right show_embeddings use_cache;
    with_col 2
      (display_or_compute_data_measures SERVER_URL cache_exists_right
         dstats_right show_embeddings dataset_args_right ds_configs_right " B")
  else
    logs_warning "Using Single Dataset Mode";;
    '(dataset_args, ds_configs) ← st_sidebar_selection ds_names "";
    '(dstats, cache_exists) ←
      load_or_prepare_widgets dataset_args show_embeddings use_cache;
    display_or_compute_data_measures SERVER_URL cache_exists dstats
      show_embeddings dataset_args ds_configs "".

(** The module body: everything executed when the file is imported or run. *)
Definition app_module (is_main : bool) : M () :=
  e ← is_file ".env";
  when e (load_dotenv ".env");;
  SERVER_URL ← getenv "SERVER_URL";
  hs ← logs_handlers;
  when (negb hs)
    (Path_mkdir_exist_ok "./log_files";;
     FileHandler "./log_files/app.log";;
     logs_addHandlers);;
  emit EvPageConfig;;
  when is_main (main SERVER_URL).

End App.

Arguments world St : clear implicits.
Arguments outcome St A : clear implicits.
Arguments M St A : clear implicits.
Arguments Out {St A} res final trace.
Arguments res {St A} o.
Arguments final {St A} o.
Arguments trace {St A} o.

(** ** A scripted collaborator and concrete surroundings *)

(** A collaborator whose answers are fixed in advance; its state counts the
    calls it has served. *)
Record behaviour := {
  b_new_raises : bool;
  b_dir_exists : bool;
  b_complete : bool;
  b_failing : list lop_method;
}.

Definition scripted (b : behaviour) : Collaborator nat := {|
  DatasetStatisticsCacheClass _ _ _ _ n :=
    (if b_new_raises b then Raised (OtherError "TypeError") else Returned (),
     S n);
  set_deployment _ _ n := (Returned (), S n);
  check_cache_dir _ n := (Returned (b_dir_exists b), S n);
  load_or_prepare_call _ m n :=
    (if bool_decide (m ∈ b_failing b)
     then Raised (OtherError "FileNotFoundError") else Returned (),
     S n);
  complete _ _ := b_complete b;
  dset_name _ _ := "imdb";
  dset_config _ _ := "plain_text";
  split_name _ _ := "train";
  text_field _ _ := ["text"];
|}.

Definition imdb_args : pydict :=
  {[ "dset_name" := PStr "imdb"; "split_name" := PStr "train" ]}.

(** The validator of the examples accepts exactly one address, which it
    normalises; the server answers [reply]. *)
Definition example_ext (email : string) (compute : bool) (reply : string)
  : Externals := {|
  CACHE_DIR := "cache_dir";
  OUR_TEXT_FIELD := "text";
  dotenv_values := ∅;
  validate_email e :=
    if bool_decide (e = "Ada@Example.org") then Returned "Ada@example.org"
    else Raised EmailNotValidError;
  requests_post _ _ := Returned reply;
  list_datasets := Returned ["imdb"];
  text_input _ := email;
  button _ := compute;
  checkbox _ := false;
  sidebar_selection _ _ := (imdb_args, ∅);
  os_refuses _ _ _ := None;
|}.

Definition empty_world : world nat := World ∅ ∅ ∅ false 0 0.

(** Every call returns and the cache is there and complete. *)
Definition all_good : behaviour :=
  {| b_new_raises := false; b_dir_exists := true; b_complete := true;
     b_failing := [] |}.

(** The statistics class finds no cache directory. *)
Definition no_dir : behaviour :=
  {| b_new_raises := false; b_dir_exists := false; b_complete := false;
     b_failing := [] |}.

(** The labels cannot be loaded. *)
Definition flaky_labels : behaviour :=
  {| b_new_raises := false; b_dir_exists := true; b_complete := true;
     b_failing := [load_or_prepare_labels] |}.

(** ** Reading traces *)

Open Scope list_scope.

Definition lop_of (e : event) : option lop_method :=
  match e with EvCall (CLoadOrPrepare _ m) _ => Some m | _ => None end.

(** The [load_or_prepare_*] methods called, in order. *)
Definition lop_calls (t : list event) : list lop_method := omap lop_of t.

Definition posts (t : list event) : list (option string * pydict) :=
  omap (λ e, match e with EvPost u d => Some (u, d) | _ => None end) t.

(** [P e post] holds wherever the trace splits as [pre ++ e :: post]. *)
Fixpoint forall_suffix (P : event → list event → bool) (t : list event)
  : bool :=
  match t with
  | [] => true
  | e :: t' => P e t' && forall_suffix P t'
  end.

(** The family of methods listed in the specification. *)
Definition spec_family : list lop_method :=
  [ load_or_prepare_dataset; load_or_prepare_labels;
    load_or_prepare_text_lengths; load_or_prepare_text_duplicates;
    load_or_prepare_vocab; load_or_prepare_general_stats;
    load_or_prepare_embeddings; load_or_prepare_npmi; load_or_prepare_zipf ].

(** The guarded calls of [load_or_prepare_widgets] with their warnings. *)
Definition widget_metrics (show_embeddings : bool)
  : list (lop_method * string) :=
  [ (load_or_prepare_dataset, "Missing a cache for load or prepare dataset");
    (load_or_prepare_dset_peek, "Missing a cache for dset peek");
    (load_or_prepare_general_stats, "Missing a cache for general stats");
    (load_or_prepare_labels, "Missing a cache for prepare labels");
    (load_or_prepare_text_lengths, "Missing a cache for text lengths") ]
  ++ (if show_embeddings
      then [(load_or_prepare_embeddings, "Missing a cache for embeddings")]
      else [])
  ++ [ (load_or_prepare_text_duplicates, "Missing a cache for text duplicates");
       (load_or_prepare_npmi, "Missing a cache for npmi");
       (load_or_prepare_zipf, "Missing a cache for zipf") ].

Definition widget_methods (show_embeddings : bool) : list lop_method :=
  (widget_metrics show_embeddings).*1.

(** The calls of [load_or_prepare], in order. *)
Definition load_or_prepare_methods (show_embeddings : bool)
  : list lop_method :=
  [ load_or_prepare_dataset; load_or_prepare_labels;
    load_or_prepare_text_lengths; load_or_prepare_text_duplicates;
    load_or_prepare_vocab; load_or_prepare_general_stats ]
  ++ (if show_embeddings then [load_or_prepare_embeddings] else [])
  ++ [ load_or_prepare_npmi; load_or_prepare_zipf ].

Section Traces.

Context {St : Type} {collab : Collaborator St}.

(** What a run of guarded calls leaves in the trace, whatever the
    collaborator answers. *)
Fixpoint isolated_trace (h : handle) (l : list (lop_method * string)) (s : St)
  : list event :=
  match l with
  | [] => []
  | (m, msg) :: l' =>
      let r := load_or_prepare_call h m s in
      EvCall (CLoadOrPrepare h m) (raised r.1)
        :: (if raised r.1 then [EvLog WARNING msg] else [])
        ++ isolated_trace h l' r.2
  end.

Fixpoint isolated_state (h : handle) (l : list (lop_method * string)) (s : St)
  : St :=
  match l with
  | [] => s
  | (m, _) :: l' => isolated_state h l' (load_or_prepare_call h m s).2
  end.

Definition prepend {A} (t : list event) (o : outcome St A) : outcome St A :=
  Out (res o) (final o) (t ++ trace o).

(** Failure isolation, as a property of one run: wherever a
    [load_or_prepare_*] call raised, the run went on with a logged warning and
    it ended by returning. *)
Definition isolates_failures {A} (o : outcome St A) : Prop :=
  ∀ (pre : list event) h m post,
    trace o = pre ++ EvCall (CLoadOrPrepare h m) true :: post →
    raised (res o) = false ∧ ∃ msg post', post = EvLog WARNING msg :: post'.

(** Checks on a [load_or_prepare_*] call that raised, given what follows it in
    the trace: inside a guard a warning comes next. *)
Definition logged_after (e : event) (post : list event) : bool :=
  match e with
  | EvCall (CLoadOrPrepare _ _) true =>
      match post with EvLog WARNING _ :: _ => true | _ => false end
  | _ => true
  end.

(** The same check for [load_or_prepare], whose only guard is around
    [load_or_prepare_npmi]: after any other raising call nothing follows and
    the run has raised ([rz]). *)
Definition unguarded_after (rz : bool) (e : event) (post : list event) : bool :=
  match e with
  | EvCall (CLoadOrPrepare _ m) true =>
      if bool_decide (m = load_or_prepare_npmi) then
        match post with
        | [EvLog WARNING a; EvLog WARNING b; EvCall (CLoadOrPrepare _ m') _] =>
            bool_decide (a = "Missing a cache for npmi")
            && bool_decide (b = "Loading Zipf")
            && bool_decide (m' = load_or_prepare_zipf)
        | _ => false
        end
      else match post with [] => rz | _ => false end
  | _ => true
  end.

(** Some call of [m] returned normally. *)
Definition returned_from (m : lop_method) (t : list event) : bool :=
  existsb (λ e, match e with
                | EvCall (CLoadOrPrepare _ m') false => bool_decide (m' = m)
                | _ => false
                end) t.

(** The embeddings expander was drawn. *)
Definition renders_embeddings (t : list event) : bool :=
  existsb (λ e, match e with
                | EvWidget (expander_text_embeddings _) _ _ => true
                | _ => false
                end) t.

(** Events of the e-mail and compute flow. *)
Definition email_flow (t : list event) : list event :=
  List.filter (λ e, match e with
                    | EvEmpty | EvTextInput _ | EvButton _ | EvValidate _
                    | EvPost _ _ | EvClear => true
                    | _ => false
                    end) t.

(** Everything checked about one run of [load_or_prepare]. *)
Definition lop_audit (se : bool) (o : outcome St handle) : bool :=
  forall_suffix (unguarded_after (raised (res o))) (trace o)
  && bool_decide (lop_calls (trace o) `prefix_of` load_or_prepare_methods se)
  && (raised (res o)
      || bool_decide (lop_calls (trace o) = load_or_prepare_methods se))
  && bool_decide
       (bool_decide (load_or_prepare_embeddings ∈ lop_calls (trace o))
        = se && returned_from load_or_prepare_general_stats (trace o)).

(** [c] creates no file and no directory. *)
Definition fs_frame {A} (c : M St A) : Prop :=
  ∀ w, w_dirs (final (c w)) = w_dirs w ∧ w_files (final (c w)) = w_files w.

(** [c] creates at most the directories [D] and the files [F]. *)
Definition fs_bound {A} (D F : gset string) (c : M St A) : Prop :=
  ∀ w, w_dirs (final (c w)) ⊆ w_dirs w ∪ D
       ∧ w_files (final (c w)) ⊆ w_files w ∪ F.

End Traces.

(** ** Footprints of a computation *)

Section Footprints.

Context {St : Type} {collab : Collaborator St}.

(** [c] leaves [f] of the world as it found it. *)
Definition keeps {X A} (f : world St → X) (c : M St A) : Prop :=
  ∀ w, f (final (c w)) = f w.

(** Every event [c] emits satisfies [P]. *)
Definition emits_only {A} (P : event → Prop) (c : M St A) : Prop :=
  ∀ w, Forall P (trace (c w)).

(** The URL the module reads at import: [SERVER_URL] in the environment after
    [.env] has been loaded. *)
Definition SERVER_URL_of (ext : Externals) (w : world St) : option string :=
  (if bool_decide (".env" ∈ w_files w)
   then w_environ w ∪ dotenv_values ext else w_environ w) !! "SERVER_URL".

End Footprints.

Definition is_collab_call (e : event) : Prop :=
  match e with EvCall _ _ => True | _ => False end.

Definition is_fs_event (e : event) : Prop :=
  match e with EvMkdir _ _ | EvOpen _ _ => True | _ => False end.

(** POSTs go to [url]. *)
Definition posts_to (url : option string) (e : event) : Prop :=
  match e with EvPost u _ => u = url | _ => True end.

(** What [main] may emit: objects are built over the cache directory with
    [use_cache=True] and put in deployment mode, POSTs go to [url], and
    nothing is done to the disk or to the page configuration. *)
Definition main_event (cache_dir : string) (url : option string) (e : event)
  : Prop :=
  match e with
  | EvCall (CNew _ d _ uc) _ => d = cache_dir ∧ uc = true
  | EvCall (CSetDeployment _ b) _ => b = true
  | EvPost u _ => u = url
  | EvMkdir _ _ | EvOpen _ _ | EvLoadDotenv _ | EvPageConfig => False
  | _ => True
  end.


(** The five events with which the no-cache branch of
    [display_or_compute_data_measures] always starts. *)
Definition form_prefix (raw : string) : list event :=
  [ EvEmpty; EvEmpty; EvTextInput msg_enter_email;
    EvButton "Compute Measurements"; EvValidate raw ].



(** ** More concrete surroundings *)

(** The constructor of the statistics class raises. *)
Definition broken_constructor : behaviour :=
  {| b_new_raises := true; b_dir_exists := true; b_complete := true;
     b_failing := [] |}.

(** Surroundings with a chosen validator, a chosen answer of the server and
    of the dataset list, and chosen widget values. *)
Definition scenario (validate : string → result string)
    (reply : result string) (datasets : result (list string))
    (email : string) (compute compare : bool) : Externals := {|
  CACHE_DIR := "cache_dir";
  OUR_TEXT_FIELD := "text";
  dotenv_values := {[ "SERVER_URL" := "http://localhost:80" ]};
  validate_email := validate;
  requests_post _ _ := reply;
  list_datasets := datasets;
  text_input _ := email;
  button _ := compute;
  checkbox l := if bool_decide (l = "Comparison mode") then compare else false;
  sidebar_selection _ _ := (imdb_args, ∅);
  os_refuses _ _ _ := None;
|}.

Definition accept_all (e : string) : result string := Returned e.

(** A disk on which a regular file has the name of the cache directory. *)
Definition file_in_the_way : world nat := World ∅ {["cache_dir"]} ∅ false 0 0.

(** Surroundings whose cache directory lies under a directory that does not
    exist: the operating system refuses to create it. *)
Definition missing_parent : Externals := {|
  CACHE_DIR := "missing/cache_dir";
  OUR_TEXT_FIELD := "text";
  dotenv_values := ∅;
  validate_email e := Returned e;
  requests_post _ _ := Returned "success";
  list_datasets := Returned ["imdb"];
  text_input _ := "";
  button _ := false;
  checkbox _ := false;
  sidebar_selection _ _ := (imdb_args, ∅);
  os_refuses D _ p :=
    if bool_decide (p = "missing/cache_dir") && bool_decide ("missing" ∉ D)
    then Some "FileNotFoundError" else None;
|}.


(** An empty disk with [SERVER_URL] set in the environment. *)
Definition configured_world : world nat :=
  World ∅ ∅ {[ "SERVER_URL" := "https://compute.example" ]} false 0 0.

(** * Properties *)

Lemma forall_suffix_spec P t :
  forall_suffix P t = true ↔
  ∀ pre e post, t = pre ++ e :: post → P e post = true.
Proof.
  induction t as [|x t IH]; simpl.
  - split; [|done]. by intros _ [|].
  - rewrite andb_true_iff, IH. split.
    + intros [Hx Ht] [|y pre] e post Heq; simplify_eq/=; eauto.
    + intros H. split; [by apply (H []) |].
      intros pre e post ->. by apply (H (x :: pre)).
Qed.

Lemma lop_calls_app t1 t2 : lop_calls (t1 ++ t2) = lop_calls t1 ++ lop_calls t2.
Proof. apply omap_app. Qed.

Lemma posts_elem t u d : EvPost u d ∈ t → (u, d) ∈ posts t.
Proof. intros Hin. apply list_elem_of_omap. by exists (EvPost u d). Qed.

Lemma posts_none t u d : posts t = [] → EvPost u d ∉ t.
Proof.
  intros H Hin%posts_elem. rewrite H in Hin. by apply not_elem_of_nil in Hin.
Qed.

Section Running.

Context {St : Type} {collab : Collaborator St}.
Implicit Types (w : world St) (h : handle) (m : lop_method).

Lemma run_bind_out {A B} (c : M St A) (k : A → M St B) w a w' t :
  c w = Out (Returned a) w' t → (c ≫= k) w = prepend t (k a w').
Proof. intros E. unfold mbind, M_bind. by rewrite E. Qed.

Lemma run_bind_raised {A B} (c : M St A) (k : A → M St B) w e w' t :
  c w = Out (Raised e) w' t → (c ≫= k) w = Out (Raised e) w' t.
Proof. intros E. unfold mbind, M_bind. by rewrite E. Qed.

Lemma run_assoc {A B C} (c : M St A) (f : A → M St B) (k : B → M St C) w :
  ((c ≫= f) ≫= k) w = (c ≫= λ a, f a ≫= k) w.
Proof.
  unfold mbind, M_bind, andthen.
  destruct (c w) as [[a|e] w1 t1]; simpl; [|done].
  destruct (f a w1) as [[b|e] w2 t2]; simpl; [|done].
  by rewrite app_assoc.
Qed.

Lemma collab_step_run {A} c (f : St → result A * St) w r s :
  f (w_cache w) = (r, s) →
  collab_step c f w = Out r (set_cache s w) [EvCall c (raised r)].
Proof. intros E. unfold collab_step. by rewrite E. Qed.

(** A guarded call always returns. *)
Lemma isolated_run h m msg w :
  try_except (call h m) (logs_warning msg) w =
  Out (Returned ()) (set_cache (load_or_prepare_call h m (w_cache w)).2 w)
      (EvCall (CLoadOrPrepare h m)
              (raised (load_or_prepare_call h m (w_cache w)).1)
       :: if raised (load_or_prepare_call h m (w_cache w)).1
          then [EvLog WARNING msg] else []).
Proof.
  unfold try_except, call, collab_step, andthen. simpl.
  by destruct (load_or_prepare_call h m (w_cache w)) as [[[]|e] s].
Qed.

Lemma run_emit {B} e (k : () → M St B) w :
  (emit e ≫= k) w = prepend [e] (k () w).
Proof. done. Qed.

Lemma run_warning {B} msg (k : () → M St B) w :
  (logs_warning msg ≫= k) w = prepend [EvLog WARNING msg] (k () w).
Proof. done. Qed.

Lemma run_info {B} msg (k : () → M St B) w :
  (logs_info msg ≫= k) w = prepend [EvLog INFO msg] (k () w).
Proof. done. Qed.

Lemma run_gets {A B} (f : world St → A) (k : A → M St B) w :
  (gets f ≫= k) w = prepend [] (k (f w) w).
Proof. done. Qed.

Lemma run_ret {A B} (a : A) (k : A → M St B) w :
  (mret a ≫= k) w = prepend [] (k a w).
Proof. done. Qed.


Lemma run_next_handle {B} (k : handle → M St B) w :
  (next_handle ≫= k) w =
  prepend [] (k (w_next w)
                (World (w_dirs w) (w_files w) (w_environ w) (w_handlers w)
                       (S (w_next w)) (w_cache w))).
Proof. done. Qed.

Lemma run_collab_out {A B} c (f : St → result A * St) (k : A → M St B)
    w a s :
  f (w_cache w) = (Returned a, s) →
  (collab_step c f ≫= k) w = prepend [EvCall c false] (k a (set_cache s w)).
Proof.
  intros E.
  by rewrite (run_bind_out _ _ _ _ _ _ (collab_step_run c f w _ _ E)).
Qed.

Lemma run_collab_raised {A B} c (f : St → result A * St) (k : A → M St B)
    w e s :
  f (w_cache w) = (Raised e, s) →
  (collab_step c f ≫= k) w = Out (Raised e) (set_cache s w) [EvCall c true].
Proof.
  intros E.
  by rewrite (run_bind_raised _ _ _ _ _ _ (collab_step_run c f w _ _ E)).
Qed.

Lemma run_call_out {B} h m (k : () → M St B) w s :
  load_or_prepare_call h m (w_cache w) = (Returned (), s) →
  (call h m ≫= k) w =
  prepend [EvCall (CLoadOrPrepare h m) false] (k () (set_cache s w)).
Proof. apply run_collab_out. Qed.

Lemma run_call_raised {B} h m (k : () → M St B) w e s :
  load_or_prepare_call h m (w_cache w) = (Raised e, s) →
  (call h m ≫= k) w =
  Out (Raised e) (set_cache s w) [EvCall (CLoadOrPrepare h m) true].
Proof. apply run_collab_raised. Qed.

Lemma run_isolated {B} h m msg (k : () → M St B) w :
  (try_except (call h m) (logs_warning msg) ≫= k) w =
  prepend (EvCall (CLoadOrPrepare h m)
             (raised (load_or_prepare_call h m (w_cache w)).1)
           :: if raised (load_or_prepare_call h m (w_cache w)).1
              then [EvLog WARNING msg] else [])
          (k () (set_cache (load_or_prepare_call h m (w_cache w)).2 w)).
Proof. by rewrite (run_bind_out _ _ _ _ _ _ (isolated_run h m msg w)). Qed.

Lemma run_mkdir_out {B} ext p (k : () → M St B) w :
  bool_decide (p ∈ w_dirs w) || bool_decide (p ∈ w_files w) = false →
  os_refuses ext (w_dirs w) (w_files w) p = None →
  (mkdir ext p ≫= k) w = prepend [EvMkdir p false] (k () (add_dir p w)).
Proof. intros E N. apply run_bind_out. unfold mkdir. by rewrite E, N. Qed.

Lemma run_mkdir_raised {B} ext p (k : () → M St B) w :
  bool_decide (p ∈ w_dirs w) || bool_decide (p ∈ w_files w) = true →
  (mkdir ext p ≫= k) w =
  Out (Raised (OtherError "FileExistsError")) w [EvMkdir p true].
Proof. intros E. apply run_bind_raised. unfold mkdir. by rewrite E. Qed.

Lemma run_mkdir_refused {B} ext p (k : () → M St B) w cls :
  bool_decide (p ∈ w_dirs w) || bool_decide (p ∈ w_files w) = false →
  os_refuses ext (w_dirs w) (w_files w) p = Some cls →
  (mkdir ext p ≫= k) w = Out (Raised (OtherError cls)) w [EvMkdir p true].
Proof. intros E N. apply run_bind_raised. unfold mkdir. by rewrite E, N. Qed.

Lemma lop_calls_isolated h l (s : St) :
  lop_calls (isolated_trace h l s) = l.*1.
Proof.
  revert s. induction l as [|[m msg] l IH]; intros s; [done|].
  simpl. rewrite lop_calls_app, IH. by destruct (raised _).
Qed.

Lemma logged_after_isolated h l (s : St) :
  forall_suffix logged_after (isolated_trace h l s) = true.
Proof.
  revert s. induction l as [|[m msg] l IH]; intros s; [done|].
  simpl. destruct (raised _); simpl; by rewrite IH.
Qed.

End Running.


(** *** What a computation leaves on disk *)

Section Frames.

Context {St : Type} {collab : Collaborator St}.

Lemma fs_frame_ret {A} (a : A) : fs_frame (mret a : M St A).
Proof. by intros w. Qed.

Lemma fs_frame_bind {A B} (c : M St A) (k : A → M St B) :
  fs_frame c → (∀ a, fs_frame (k a)) → fs_frame (c ≫= k).
Proof.
  intros Hc Hk w. unfold mbind, M_bind, andthen.
  destruct (Hc w) as [Hd Hf]. destruct (res (c w)) as [a|e]; simpl; [|done].
  destruct (Hk a (final (c w))) as [Hd' Hf']. by rewrite Hd', Hf'.
Qed.

Lemma fs_frame_emit e : fs_frame (emit e : M St ()).
Proof. by intros w. Qed.

Lemma fs_frame_warning msg : fs_frame (logs_warning msg : M St ()).
Proof. by intros w. Qed.

Lemma fs_frame_info msg : fs_frame (logs_info msg : M St ()).
Proof. by intros w. Qed.

Lemma fs_frame_gets {A} (f : world St → A) : fs_frame (gets f).
Proof. by intros w. Qed.

Lemma fs_frame_attr {A} (f : handle → St → A) h : fs_frame (attr f h).
Proof. by intros w. Qed.

Lemma fs_frame_lift {A} (r : result A) : fs_frame (lift r : M St A).
Proof. by intros w. Qed.

Lemma fs_frame_collab_step {A} c (f : St → result A * St) :
  fs_frame (collab_step c f).
Proof. by intros w. Qed.

Lemma fs_frame_call h m : fs_frame (call h m).
Proof. by intros w. Qed.

Lemma fs_frame_next_handle : fs_frame (next_handle : M St handle).
Proof. by intros w. Qed.

Lemma fs_frame_try_except {A} (body handler : M St A) :
  fs_frame body → fs_frame handler → fs_frame (try_except body handler).
Proof.
  intros Hb Hh w. unfold try_except, andthen.
  destruct (Hb w) as [Hd Hf]. destruct (res (body w)); simpl; [done|].
  destruct (Hh (final (body w))) as [Hd' Hf']. by rewrite Hd', Hf'.
Qed.

Lemma fs_frame_try_except_EmailNotValidError {A} (body handler : M St A) :
  fs_frame body → fs_frame handler →
  fs_frame (try_except_EmailNotValidError body handler).
Proof.
  intros Hb Hh w. unfold try_except_EmailNotValidError, andthen.
  destruct (Hb w) as [Hd Hf]. destruct (res (body w)) as [|[]]; simpl; try done.
  destruct (Hh (final (body w))) as [Hd' Hf']. by rewrite Hd', Hf'.
Qed.

Lemma fs_frame_when b (c : M St ()) : fs_frame c → fs_frame (when b c).
Proof. destruct b; [done|]. intros _. apply fs_frame_ret. Qed.

Lemma fs_frame_with_col {A} col (c : M St A) :
  fs_frame c → fs_frame (with_col col c).
Proof. intros Hc w. apply Hc. Qed.

End Frames.

Ltac frame :=
  repeat first
    [ assumption
    | match goal with
      | H : context [fs_frame] |- fs_frame _ => simple apply H
      end
    | apply fs_frame_bind; [|intros ?]
    | apply fs_frame_ret | apply fs_frame_emit | apply fs_frame_warning
    | apply fs_frame_info | apply fs_frame_gets | apply fs_frame_attr
    | apply fs_frame_lift | apply fs_frame_collab_step | apply fs_frame_call
    | apply fs_frame_next_handle | apply fs_frame_try_except
    | apply fs_frame_try_except_EmailNotValidError
    | apply fs_frame_when | apply fs_frame_with_col
    | match goal with
      | |- fs_frame (if ?b then _ else _) => destruct b
      | |- fs_frame (let '(_, _) := ?p in _) => destruct p
      | |- fs_frame (match ?p with (_, _) => _ end) => destruct p
      end ].

Ltac run :=
  repeat (first
    [ rewrite run_assoc | rewrite run_emit | rewrite run_warning
    | rewrite run_info | rewrite run_gets | rewrite run_ret
    | rewrite run_next_handle | rewrite run_isolated
    | erewrite run_collab_out by eassumption
    | erewrite run_collab_raised by eassumption ];
          cbn beta iota delta [when negb set_cache add_dir add_file
               w_dirs w_files w_environ w_handlers w_next w_cache]).

(** Case analysis on the answer of the next collaborator call. *)
Ltac run_call :=
  match goal with
  | |- context [(collab_step ?c ?f ≫= _) ?w] =>
      let E := fresh "E" in
      destruct (f (w_cache w)) as [[?|?] ?] eqn:E;
      [ rewrite (run_collab_out _ _ _ _ _ _ E)
      | rewrite (run_collab_raised _ _ _ _ _ _ E) ]; cbv beta; run
  | |- context [(call ?h ?m ≫= _) ?w] =>
      let E := fresh "E" in
      destruct (load_or_prepare_call h m (w_cache w)) as [[[]|?] ?] eqn:E;
      [ rewrite (run_call_out _ _ _ _ _ E)
      | rewrite (run_call_raised _ _ _ _ _ _ E) ]; cbv beta; run
  end.

(** Case analysis on the answers that guarded calls have left in the goal. *)
Ltac split_answers :=
  repeat match goal with
  | |- context [load_or_prepare_call ?h ?m ?s] =>
      destruct (load_or_prepare_call h m s) as [[[]|?] ?]
  end.

Ltac finish := cbn [prepend res final trace app raised fst snd].

Section Loaders.

Context {St : Type} {collab : Collaborator St} (ext : Externals).
Implicit Types (w : world St) (h : handle) (m : lop_method).

Lemma widgets_run ds se uc w ce s1 s2 s3 :
  let h := w_next w in
  DatasetStatisticsCacheClass h (CACHE_DIR ext) ds uc (w_cache w)
    = (Returned (), s1) →
  set_deployment h true s1 = (Returned (), s2) →
  check_cache_dir h s2 = (Returned ce, s3) →
  load_or_prepare_widgets ext ds se uc w =
  Out (Returned (h, ce))
      (World (w_dirs w) (w_files w) (w_environ w) (w_handlers w) (S h)
         (if ce then isolated_state h (widget_metrics se) s3 else s3))
      ((if uc then [EvLog WARNING "Using cache"] else [])
       ++ [EvCall (CNew h (CACHE_DIR ext) ds uc) false;
           EvCall (CSetDeployment h true) false;
           EvCall (CCheckCacheDir h) false]
       ++ (if ce then isolated_trace h (widget_metrics se) s3 else [])).
Proof.
  intros h H1 H2 H3.
  unfold load_or_prepare_widgets, new_dstats, call_set_deployment,
    call_check_cache_dir.
  destruct uc, ce, se; cbn [when]; run; reflexivity.
Qed.

Ltac lop_cases :=
  unfold load_or_prepare, new_dstats, isdir; run;
  match goal with
  | |- context [bool_decide (?p ∈ w_dirs ?w)] =>
      let Hd := fresh "Hd" in let Hf := fresh "Hf" in
      destruct (bool_decide (p ∈ w_dirs w)) eqn:Hd; cbn [when negb]; run;
      [| destruct (bool_decide (p ∈ w_files w)) eqn:Hf;
         [ rewrite (run_mkdir_raised ext p) by (by rewrite Hd, Hf)
         | let Ho := fresh "Ho" in
           destruct (os_refuses ext (w_dirs w) (w_files w) p) eqn:Ho;
           [ erewrite (run_mkdir_refused ext p)
               by (eassumption || by rewrite Hd, Hf)
           | rewrite (run_mkdir_out ext p)
               by (assumption || by rewrite Hd, Hf) ] ];
         run ]
  end;
  match goal with
  | uc : bool, se : bool |- _ =>
      destruct uc, se; cbn [when]; run; repeat run_call
  end;
  split_answers; finish.


(** *** [load_or_prepare], by cases on every answer *)

Lemma load_or_prepare_audit ds se uc w :
  lop_audit se (load_or_prepare ext ds se uc w) = true.
Proof.
  lop_cases; vm_compute; reflexivity.
Qed.


(** *** The functions reachable from [main] leave the disk alone *)

Lemma fs_frame_new_dstats cache_dir args uc :
  fs_frame (new_dstats (St:=St) cache_dir args uc).
Proof. unfold new_dstats. frame. Qed.

Lemma fs_frame_load_or_prepare_widgets ds se uc :
  fs_frame (load_or_prepare_widgets ext ds se uc).
Proof.
  unfold load_or_prepare_widgets, call_set_deployment, call_check_cache_dir.
  pose proof fs_frame_new_dstats. frame.
Qed.

Lemma fs_frame_show_column h cfg se col :
  fs_frame (show_column ext h cfg se col).
Proof. unfold show_column, title_str. frame. Qed.

Lemma fs_frame_display_or_compute url ce h se args cfg col :
  fs_frame (display_or_compute_data_measures ext url ce h se args cfg col).
Proof.
  unfold display_or_compute_data_measures, st_text_input, st_button,
    call_validate_email, post.
  pose proof fs_frame_show_column. frame.
Qed.

Lemma fs_frame_main url : fs_frame (main ext url).
Proof.
  unfold main, list_datasets_wrapper, st_sidebar_checkbox,
    st_sidebar_selection.
  pose proof fs_frame_load_or_prepare_widgets.
  pose proof fs_frame_display_or_compute. frame.
Qed.

End Loaders.

(** * The claims *)

Section LoaderClaims.

Context {St : Type} {collab : Collaborator St} (ext : Externals).
Implicit Types (w : world St) (h : handle) (m : lop_method).

Lemma logged_after_sound h m post :
  logged_after (EvCall (CLoadOrPrepare h m) true) post = true →
  ∃ msg post', post = EvLog WARNING msg :: post'.
Proof.
  destruct post as [|e post]; [done|].
  destruct e; try done.
  match goal with l : level |- _ => destruct l end; [done|]. eauto.
Qed.

Lemma unguarded_after_sound rz h m post :
  unguarded_after rz (EvCall (CLoadOrPrepare h m) true) post = true →
  (m = load_or_prepare_npmi
   ∧ ∃ h' exc, post = [EvLog WARNING "Missing a cache for npmi";
                        EvLog WARNING "Loading Zipf";
                        EvCall (CLoadOrPrepare h' load_or_prepare_zipf) exc])
  ∨ (m ≠ load_or_prepare_npmi ∧ post = [] ∧ rz = true).
Proof.
  unfold unguarded_after. case_bool_decide as Hm.
  - intros H. left. split; [done|].
    repeat match type of H with
           | context [match ?x with _ => _ end] =>
               is_var x; destruct x; try discriminate H
           end.
    repeat (apply andb_prop in H as [H ?]).
    repeat match goal with
           | H : bool_decide _ = true |- _ => apply bool_decide_eq_true in H
           end.
    subst. eauto.
  - intros H. right. destruct post; [done|discriminate].
Qed.

Lemma no_lop_call_split t (pre : list event) h m exc post :
  lop_calls t = [] → t ≠ pre ++ EvCall (CLoadOrPrepare h m) exc :: post.
Proof.
  intros H ->. by rewrite lop_calls_app in H; destruct (lop_calls pre).
Qed.

(** The two ways a run of [load_or_prepare_widgets] can go. *)
Lemma widgets_outcome ds se uc w :
  let o := load_or_prepare_widgets ext ds se uc w in
  (raised (res o) = true ∧ lop_calls (trace o) = [])
  ∨ (∃ ce, res o = Returned (w_next w, ce)
           ∧ lop_calls (trace o) = (if ce then widget_methods se else [])
           ∧ forall_suffix logged_after (trace o) = true).
Proof.
  intros o. subst o.
  destruct (DatasetStatisticsCacheClass (w_next w) (CACHE_DIR ext) ds uc
              (w_cache w)) as [[[]|e1] s1] eqn:E1.
  2:{ left. unfold load_or_prepare_widgets, new_dstats.
      destruct uc; cbn [when]; run; by finish. }
  destruct (set_deployment (w_next w) true s1) as [[[]|e2] s2] eqn:E2.
  2:{ left. unfold load_or_prepare_widgets, new_dstats, call_set_deployment.
      destruct uc; cbn [when]; run; by finish. }
  destruct (check_cache_dir (w_next w) s2) as [[ce|e3] s3] eqn:E3.
  2:{ left. unfold load_or_prepare_widgets, new_dstats, call_set_deployment,
        call_check_cache_dir.
      destruct uc; cbn [when]; run; by finish. }
  right. exists ce. rewrite (widgets_run _ _ _ _ _ _ _ _ _ E1 E2 E3).
  cbn [res trace]. split; [done|]. split.
  - destruct uc, ce; rewrite !lop_calls_app, ?lop_calls_isolated; done.
  - destruct uc, ce; cbn [app forall_suffix logged_after andb]; try done.
    all: apply logged_after_isolated.
Qed.

Lemma load_or_prepare_audit_parts ds se uc w :
  let o := load_or_prepare ext ds se uc w in
  forall_suffix (unguarded_after (raised (res o))) (trace o) = true
  ∧ lop_calls (trace o) `prefix_of` load_or_prepare_methods se
  ∧ (raised (res o) = false →
     lop_calls (trace o) = load_or_prepare_methods se)
  ∧ (load_or_prepare_embeddings ∈ lop_calls (trace o) ↔
     se = true
     ∧ returned_from load_or_prepare_general_stats (trace o) = true).
Proof.
  intros o. pose proof (load_or_prepare_audit ext ds se uc w) as H.
  fold o in H. unfold lop_audit in H.
  apply andb_prop in H as [H Hemb]. apply andb_prop in H as [H Hret].
  apply andb_prop in H as [Hs Hpre].
  apply bool_decide_eq_true in Hpre, Hemb.
  split; [done|]. split; [done|]. split.
  - intros Hr. rewrite Hr in Hret. by apply bool_decide_eq_true in Hret.
  - by rewrite <- (bool_decide_eq_true (_ ∈ _)), Hemb, andb_true_iff.
Qed.

(** C1 (amended): in [load_or_prepare_widgets] every [load_or_prepare_*] call
    is wrapped in local failure isolation: wherever such a call raises, a
    warning is logged next and the loader still returns, and whenever the
    loader reports that the cache directory exists it has called every metric
    of [widget_methods], whatever raised.  In [load_or_prepare] only the
    [load_or_prepare_npmi] call is wrapped: when it raises, the warning is
    logged and [load_or_prepare_zipf] is still called; when any other
    [load_or_prepare_*] call raises, nothing follows and the loader raises. *)
Theorem failure_isolation_in_loaders ds se uc w :
  let ow := load_or_prepare_widgets ext ds se uc w in
  let ol := load_or_prepare ext ds se uc w in
  (isolates_failures ow
   ∧ (∀ h, res ow = Returned (h, true) →
           lop_calls (trace ow) = widget_methods se))
  ∧ (∀ (pre : list event) h m post,
       trace ol = pre ++ EvCall (CLoadOrPrepare h m) true :: post →
       (m = load_or_prepare_npmi
        ∧ ∃ h' exc, post = [EvLog WARNING "Missing a cache for npmi";
                             EvLog WARNING "Loading Zipf";
                             EvCall (CLoadOrPrepare h' load_or_prepare_zipf)
                                    exc])
       ∨ (m ≠ load_or_prepare_npmi ∧ post = [] ∧ raised (res ol) = true)).
Proof.
  intros ow ol. split; [split|].
  - intros pre h m post Heq.
    destruct (widgets_outcome ds se uc w) as [[_ Hn]|(ce & Hr & _ & Hs)];
      fold ow in Hn || fold ow in Hr, Hs.
    + by eapply no_lop_call_split in Hn.
    + split; [by rewrite Hr|].
      eapply logged_after_sound, forall_suffix_spec; eauto.
  - intros h Hret.
    destruct (widgets_outcome ds se uc w) as [[Hx _]|(ce & Hr & Hc & _)];
      fold ow in Hx || fold ow in Hr, Hc.
    + by rewrite Hret in Hx.
    + rewrite Hret in Hr. by simplify_eq.
  - intros pre h m post Heq.
    destruct (load_or_prepare_audit_parts ds se uc w) as [Hs _].
    eapply unguarded_after_sound, forall_suffix_spec; eauto.
Qed.

(** C8: when [check_cache_dir()] returns false, [load_or_prepare_widgets]
    returns the pair of the statistics object and false, and calls no
    [load_or_prepare_*] method: its trace stops at [check_cache_dir]. *)
Theorem load_or_prepare_widgets_without_cache_dir ds se uc w s1 s2 s3 :
  DatasetStatisticsCacheClass (w_next w) (CACHE_DIR ext) ds uc (w_cache w)
    = (Returned (), s1) →
  set_deployment (w_next w) true s1 = (Returned (), s2) →
  check_cache_dir (w_next w) s2 = (Returned false, s3) →
  let o := load_or_prepare_widgets ext ds se uc w in
  res o = Returned (w_next w, false)
  ∧ lop_calls (trace o) = []
  ∧ trace o = (if uc then [EvLog WARNING "Using cache"] else [])
              ++ [EvCall (CNew (w_next w) (CACHE_DIR ext) ds uc) false;
                  EvCall (CSetDeployment (w_next w) true) false;
                  EvCall (CCheckCacheDir (w_next w)) false].
Proof.
  intros H1 H2 H3 o. subst o.
  rewrite (widgets_run _ _ _ _ _ _ _ _ _ H1 H2 H3). cbn [res trace].
  by destruct uc.
Qed.

(** C5 (amended): [load_or_prepare] calls the methods of the family named in
    the specification, in that order, up to the first one that raises outside
    a guard, and all of them when it returns and [show_embeddings] is true.
    [load_or_prepare_widgets], the loader used by [main], calls either nothing
    or, when the cache directory exists, the methods of [widget_methods]: with
    [show_embeddings] true these are the family without
    [load_or_prepare_vocab] and with [load_or_prepare_dset_peek], which the
    specification does not list. *)
Theorem methods_called_by_loaders ds se uc w :
  let ow := load_or_prepare_widgets ext ds se uc w in
  let ol := load_or_prepare ext ds se uc w in
  (lop_calls (trace ol) `prefix_of` load_or_prepare_methods se
   ∧ (raised (res ol) = false →
      lop_calls (trace ol) = load_or_prepare_methods se)
   ∧ load_or_prepare_methods true = spec_family)
  ∧ ((lop_calls (trace ow) = [] ∨ lop_calls (trace ow) = widget_methods se)
     ∧ (∀ h, res ow = Returned (h, true) →
             lop_calls (trace ow) = widget_methods se)
     ∧ (∀ m, m ∈ widget_methods true ↔
             (m ∈ spec_family ∧ m ≠ load_or_prepare_vocab)
             ∨ m = load_or_prepare_dset_peek)).
Proof.
  intros ow ol. split.
  - destruct (load_or_prepare_audit_parts ds se uc w) as (_ & Hp & Hr & _).
    done.
  - split; [|split].
    + destruct (widgets_outcome ds se uc w) as [[_ Hn]|(ce & _ & Hc & _)];
        [by left|].
      destruct ce; [by right | by left].
    + intros h Hret.
      destruct (widgets_outcome ds se uc w) as [[Hx _]|(ce & Hr & Hc & _)];
        fold ow in Hx || fold ow in Hr, Hc.
      * by rewrite Hret in Hx.
      * rewrite Hret in Hr. by simplify_eq.
    + intros m. destruct m; compute_done.
Qed.

Lemma show_column_embeddings h cfg se col w :
  renders_embeddings (trace (show_column ext h cfg se col w)) = se.
Proof.
  unfold show_column, title_str, attr. run. by destruct se.
Qed.

(** C9 (amended): [load_or_prepare_embeddings] is called only when
    [show_embeddings] is true, but the flag is not the only gate: in
    [load_or_prepare_widgets] it is called exactly when the flag is true and
    the loader found the cache directory, in [load_or_prepare] exactly when
    the flag is true and the preceding [load_or_prepare_general_stats] call
    returned.  [show_column] draws the embeddings expander exactly when the
    flag is true. *)
Theorem embeddings_gating ds se uc w h cfg col :
  let ow := load_or_prepare_widgets ext ds se uc w in
  let ol := load_or_prepare ext ds se uc w in
  (load_or_prepare_embeddings ∈ lop_calls (trace ow) ↔
   se = true ∧ ∃ h', res ow = Returned (h', true))
  ∧ (load_or_prepare_embeddings ∈ lop_calls (trace ol) ↔
     se = true
     ∧ returned_from load_or_prepare_general_stats (trace ol) = true)
  ∧ renders_embeddings (trace (show_column ext h cfg se col w)) = se.
Proof.
  intros ow ol. split; [|split].
  - destruct (widgets_outcome ds se uc w) as [[Hx Hn]|(ce & Hr & Hc & _)];
      fold ow in Hx, Hn || fold ow in Hr, Hc.
    + rewrite Hn. split; [by intros ?%elem_of_nil|].
      intros [_ [h' Hret]]. by rewrite Hret in Hx.
    + rewrite Hc, Hr. destruct ce, se; split.
      all: try (intros Hin; apply (bool_decide_pack _) in Hin;
                by vm_compute in Hin).
      all: try (intros [? [h' ?]]; by simplify_eq).
      * eauto.
      * intros _. compute_done.
  - by destruct (load_or_prepare_audit_parts ds se uc w) as (_ & _ & _ & He).
  - apply show_column_embeddings.
Qed.

(** C10 (amended): [load_or_prepare] deals with the cache directory before
    anything else.  When [CACHE_DIR] is not an existing directory,
    [mkdir(CACHE_DIR)] is what it does first.  If [mkdir] returns, the
    directory exists from then on.  If it raises (it does when a regular file
    has that name, and whenever the operating system refuses), the loader
    raises at once: nothing has been created and the statistics class is not
    reached.  Every call into the statistics class, the constructor included,
    comes after a [mkdir] that returned unless the directory was there from
    the start; so whenever the statistics class is reached, [CACHE_DIR] is a
    directory. *)
Theorem load_or_prepare_establishes_cache_dir ds se uc w :
  let o := load_or_prepare ext ds se uc w in
  (CACHE_DIR ext ∉ w_dirs w →
   ∃ exc rest,
     trace o = EvLog WARNING "Creating cache"
               :: EvMkdir (CACHE_DIR ext) exc :: rest
     ∧ (exc = false → CACHE_DIR ext ∈ w_dirs (final o))
     ∧ (exc = true → rest = [] ∧ raised (res o) = true ∧ final o = w)
     ∧ (CACHE_DIR ext ∈ w_files w → exc = true))
  ∧ (∀ (pre : list event) c exc post,
       trace o = pre ++ EvCall c exc :: post →
       CACHE_DIR ext ∈ w_dirs w ∨ EvMkdir (CACHE_DIR ext) false ∈ pre)
  ∧ ((∃ c exc, EvCall c exc ∈ trace o) → CACHE_DIR ext ∈ w_dirs (final o)).
Proof.
  intros o. subst o. unfold load_or_prepare, isdir. run.
  destruct (bool_decide (CACHE_DIR ext ∈ w_dirs w)) eqn:Hd;
    cbn [when negb]; run.
  - apply bool_decide_eq_true in Hd.
    match goal with |- context [prepend _ (?r w)] => set (rest := r) end.
    assert (fs_frame rest) as Hf.
    { unfold rest. pose proof (fs_frame_new_dstats (St:=St)). frame. }
    finish. split; [done|]. split; [by left|].
    intros _. by rewrite (proj1 (Hf w)).
  - apply bool_decide_eq_false in Hd.
    destruct (bool_decide (CACHE_DIR ext ∈ w_files w)) eqn:Hfile;
      [|destruct (os_refuses ext (w_dirs w) (w_files w) (CACHE_DIR ext))
          as [cls|] eqn:Ho].
    + rewrite (run_mkdir_raised ext (CACHE_DIR ext))
        by (by rewrite bool_decide_eq_false_2, Hfile).
      finish. split; [|split].
      * intros _. exists true, []. by repeat split.
      * intros [|? [|? [|]]] ????; simplify_eq/=.
      * intros (c & exc & Hin). exfalso. revert Hin.
        rewrite !elem_of_cons, elem_of_nil. by intros [?|[?|[]]].
    + rewrite (run_mkdir_refused ext (CACHE_DIR ext) _ _ cls)
        by (done || by rewrite bool_decide_eq_false_2, Hfile).
      apply bool_decide_eq_false in Hfile.
      finish. split; [|split].
      * intros _. exists true, []. by repeat split.
      * intros [|? [|? [|]]] ????; simplify_eq/=.
      * intros (c & exc & Hin). exfalso. revert Hin.
        rewrite !elem_of_cons, elem_of_nil. by intros [?|[?|[]]].
    + rewrite (run_mkdir_out ext (CACHE_DIR ext))
        by (done || by rewrite bool_decide_eq_false_2, Hfile).
      apply bool_decide_eq_false in Hfile.
      match goal with
      | |- context [prepend _ (?r (add_dir _ w))] => set (rest := r)
      end.
      assert (fs_frame rest) as Hf.
      { unfold rest. pose proof (fs_frame_new_dstats (St:=St)). frame. }
      assert (CACHE_DIR ext
                ∈ w_dirs (final (rest (add_dir (CACHE_DIR ext) w)))) as Hin.
      { rewrite (proj1 (Hf _)). cbn. apply elem_of_union_l.
        by apply elem_of_singleton. }
      finish. split; [|split].
      * intros _. eexists false, _. split; [done|]. by repeat split.
      * intros [|? [|? pre]] ????; simplify_eq/=.
        right. rewrite !elem_of_cons. auto.
      * done.
Qed.

End LoaderClaims.

Section DisplayClaims.

Context {St : Type} {collab : Collaborator St} (ext : Externals).
Implicit Types (w : world St) (h : handle) (m : lop_method).

Lemma run_validate {B} email (k : bool * string → M St B) w :
  (try_except_EmailNotValidError
     (v ← call_validate_email ext email; mret (true, v))
     (mret (false, email)) ≫= k) w =
  match validate_email ext email with
  | Returned v => prepend [EvValidate email] (k (true, v) w)
  | Raised EmailNotValidError => prepend [EvValidate email] (k (false, email) w)
  | Raised e => Out (Raised e) w [EvValidate email]
  end.
Proof.
  unfold mbind, M_bind, try_except_EmailNotValidError, call_validate_email,
    andthen, lift, emit, prepend. simpl.
  by destruct (validate_email ext email) as [v|[|cls]].
Qed.

Lemma run_post {B} url data (k : string → M St B) w :
  (post ext url data ≫= k) w =
  match requests_post ext url data with
  | Returned txt => prepend [EvPost url data] (k txt w)
  | Raised e => Out (Raised e) w [EvPost url data]
  end.
Proof.
  unfold mbind, M_bind, post, andthen, lift, emit, prepend. simpl.
  by destruct (requests_post ext url data).
Qed.

Lemma show_column_run h cfg se col w :
  show_column ext h cfg se col w =
  Out (Returned ()) w
      ([ EvMarkdown ("### Showing" ++ col ++ ": " ++ dset_name h (w_cache w)
                     ++ " - " ++ dset_config h (w_cache w) ++ " - "
                     ++ split_name h (w_cache w) ++ " - "
                     ++ String.concat "-" (text_field h (w_cache w)))%string;
         EvLog INFO "showing header";
         EvWidget expander_header h col;
         EvLog INFO "showing general stats";
         EvWidget expander_general_stats h col;
         EvWidget expander_label_distribution h col;
         EvWidget expander_text_lengths h col;
         EvWidget expander_text_duplicates h col;
         EvLog INFO "showing npmi widget";
         EvWidget (npmi_widget 10) h col;
         EvLog INFO "showing zipf";
         EvWidget expander_zipf h col ]
       ++ if se then [EvWidget (expander_text_embeddings (OUR_TEXT_FIELD ext))
                               h col]
          else []).
Proof. unfold show_column, title_str, attr. run. by destruct se. Qed.

Lemma dict_kw_lookup (base kw : pydict) k :
  dict_kw base kw !! k =
  match kw !! k with Some v => Some v | None => base !! k end.
Proof.
  unfold dict_kw. rewrite lookup_union.
  by destruct (kw !! k), (base !! k).
Qed.


Ltac run_display :=
  unfold display_or_compute_data_measures, st_text_input, st_button, attr;
  run; rewrite ?run_validate.

(** C2: when there is no cache, the e-mail validates and the compute button
    is pressed, one POST is sent to the configured URL; its payload is the
    dictionary with the normalised e-mail under ["email"] over which the
    dataset arguments are written; the success message is shown exactly when
    the text of the response is ["success"], the failure message for any
    other text. *)
Theorem compute_request url dstats se args cfg col w norm txt :
  let raw := text_input ext msg_enter_email in
  let payload := dict_kw {["email" := PStr norm]} args in
  validate_email ext raw = Returned norm →
  button ext "Compute Measurements" = true →
  requests_post ext url payload = Returned txt →
  let o := display_or_compute_data_measures ext url false dstats se args cfg
             col w in
  trace o = [ EvEmpty; EvEmpty; EvTextInput msg_enter_email;
              EvButton "Compute Measurements"; EvValidate raw;
              EvPost url payload; EvClear; EvClear;
              EvText (if bool_decide (txt = "success") then msg_computing
                      else msg_problem) ]
  ∧ posts (trace o) = [(url, payload)]
  ∧ (∀ k, payload !! k =
          match args !! k with
          | Some v => Some v
          | None => if bool_decide (k = "email") then Some (PStr norm)
                    else None
          end)
  ∧ (EvText msg_computing ∈ trace o ↔ txt = "success")
  ∧ (EvText msg_problem ∈ trace o ↔ txt ≠ "success").
Proof.
  intros raw payload Hv Hb Hp o.
  assert (trace o = [ EvEmpty; EvEmpty; EvTextInput msg_enter_email;
              EvButton "Compute Measurements"; EvValidate raw;
              EvPost url payload; EvClear; EvClear;
              EvText (if bool_decide (txt = "success") then msg_computing
                      else msg_problem) ]) as Ht.
  { subst o. run_display. fold raw. rewrite Hv. cbv beta iota. rewrite Hb.
    cbn [when]. fold payload. rewrite run_post, Hp. run.
    by destruct (bool_decide (txt = "success")). }
  split; [done|]. rewrite Ht. split; [done|]. split; [|split].
  - clear Ht. intros k. unfold payload. rewrite dict_kw_lookup.
    destruct (args !! k); [done|].
    case_bool_decide as Hk; [rewrite Hk; apply lookup_singleton_eq|].
    apply lookup_singleton_ne. congruence.
  - clear Ht. case_bool_decide as Hs; split; try done.
    + intros _. rewrite !elem_of_cons. tauto.
    + intros Hin. exfalso. revert Hin. rewrite !elem_of_cons, elem_of_nil.
      intros [?|[?|[?|[?|[?|[?|[?|[?|[?|[]]]]]]]]]]; discriminate.
  - clear Ht. case_bool_decide as Hs; split; try done.
    + intros Hin. exfalso. revert Hin. rewrite !elem_of_cons, elem_of_nil.
      intros [?|[?|[?|[?|[?|[?|[?|[?|[?|[]]]]]]]]]]; discriminate.
    + intros _. rewrite !elem_of_cons. tauto.
Qed.

(** C3: when the cache exists, [display_or_compute_data_measures] sends no
    POST. *)
Theorem no_post_when_cache_exists url dstats se args cfg col w u d :
  EvPost u d ∉
    trace (display_or_compute_data_measures ext url true dstats se args cfg
             col w).
Proof.
  apply posts_none. run_display.
  destruct (complete dstats (w_cache w)); [|done].
  rewrite show_column_run. by destruct se.
Qed.

(** C4: with the cache present, a complete cache makes the function behave
    as [show_column] (the statistics column is displayed); an incomplete one
    makes it show only the check-back message; in both cases nothing of the
    e-mail and compute flow happens. *)
Theorem display_with_cache url dstats se args cfg col w :
  let o := display_or_compute_data_measures ext url true dstats se args cfg
             col w in
  let sc := show_column ext dstats cfg se col w in
  (complete dstats (w_cache w) = true →
   res o = res sc ∧ final o = final sc ∧ trace o = trace sc
   ∧ EvWidget expander_header dstats col ∈ trace o)
  ∧ (complete dstats (w_cache w) = false →
     res o = Returned () ∧ trace o = [EvMarkdown msg_check_back])
  ∧ email_flow (trace o) = [].
Proof.
  intros o sc. subst o sc. run_display.
  destruct (complete dstats (w_cache w)).
  - rewrite show_column_run. finish. split; [|split; [done|by destruct se]].
    intros _. repeat split. rewrite !elem_of_cons. tauto.
  - by finish.
Qed.



End DisplayClaims.

Section Bounds.

Context {St : Type} {collab : Collaborator St}.
Implicit Types (D F : gset string).

Lemma add_within (X D : gset string) p : p ∈ D → {[p]} ∪ X ⊆ X ∪ D.
Proof.
  intros Hp. apply union_least; [|apply union_subseteq_l].
  by apply singleton_subseteq_l, elem_of_union_r.
Qed.

Lemma fs_bound_frame {A} D F (c : M St A) : fs_frame c → fs_bound D F c.
Proof.
  intros Hc w. destruct (Hc w) as [-> ->]. split; apply union_subseteq_l.
Qed.

Lemma fs_bound_bind {A B} D F (c : M St A) (k : A → M St B) :
  fs_bound D F c → (∀ a, fs_bound D F (k a)) → fs_bound D F (c ≫= k).
Proof.
  intros Hc Hk w. unfold mbind, M_bind, andthen.
  destruct (Hc w) as [Hd Hf]. destruct (res (c w)) as [a|e]; simpl; [|done].
  destruct (Hk a (final (c w))) as [Hd' Hf'].
  split; (etrans; [eassumption|]); (apply union_least; [done|]);
    apply union_subseteq_r.
Qed.

Lemma fs_bound_when D F b (c : M St ()) :
  fs_bound D F c → fs_bound D F (when b c).
Proof. destruct b; [done|]. intros _. by apply fs_bound_frame. Qed.

Lemma fs_bound_mkdir ext D F p : p ∈ D → fs_bound D F (mkdir (St:=St) ext p).
Proof.
  intros Hp w. unfold mkdir.
  destruct (_ || _); [|destruct (os_refuses _ _ _ _)]; simpl;
    (split; [|apply union_subseteq_l]).
  1,2: apply union_subseteq_l.
  by apply add_within.
Qed.

Lemma fs_bound_Path_mkdir_exist_ok ext D F p :
  p ∈ D → fs_bound D F (Path_mkdir_exist_ok (St:=St) ext p).
Proof.
  intros Hp w. unfold Path_mkdir_exist_ok.
  destruct (bool_decide _); [|by apply fs_bound_mkdir].
  split; apply union_subseteq_l.
Qed.

Lemma fs_bound_FileHandler ext D F p :
  p ∈ F → fs_bound D F (FileHandler (St:=St) ext p).
Proof.
  intros Hp w. unfold FileHandler.
  destruct (bool_decide _); [|destruct (os_refuses _ _ _ _)]; simpl;
    (split; [apply union_subseteq_l|]).
  1,2: apply union_subseteq_l.
  by apply add_within.
Qed.

End Bounds.

Ltac bound :=
  repeat first
    [ apply fs_bound_frame;
      match goal with
      | H : context [fs_frame] |- fs_frame _ => simple apply H
      end
    | simple apply fs_bound_bind; [|intros ?]
    | apply fs_bound_when
    | apply fs_bound_mkdir; by apply elem_of_singleton
    | apply fs_bound_Path_mkdir_exist_ok; by apply elem_of_singleton
    | apply fs_bound_FileHandler; by apply elem_of_singleton
    | apply fs_bound_frame; frame ].

Section Persist.
Context {St : Type} {collab : Collaborator St} (ext : Externals).

Lemma fs_frame_load_dotenv p : fs_frame (load_dotenv (St:=St) ext p).
Proof. by intros w. Qed.

Lemma fs_frame_logs_addHandlers : fs_frame (logs_addHandlers (St:=St)).
Proof. by intros w. Qed.

Lemma run_load_dotenv {B} p (k : () → M St B) w :
  (load_dotenv ext p ≫= k) w =
  prepend [EvLoadDotenv p]
    (k () (World (w_dirs w) (w_files w) (w_environ w ∪ dotenv_values ext)
                 (w_handlers w) (w_next w) (w_cache w))).
Proof. done. Qed.

(** Once the logger has its handlers, running the module again creates
    nothing. *)
Lemma app_module_with_handlers is_main w :
  w_handlers w = true →
  w_dirs (final (app_module ext is_main w)) = w_dirs w
  ∧ w_files (final (app_module ext is_main w)) = w_files w.
Proof.
  intros Hh. unfold app_module, is_file, getenv, logs_handlers. run.
  destruct (bool_decide (".env" ∈ w_files w)); cbn [when];
    rewrite ?run_load_dotenv; run; cbn [w_handlers]; rewrite Hh;
    cbn [when negb]; run.
  all: destruct is_main; cbn [when]; finish; try done.
  all: exact (fs_frame_main ext _ _).
Qed.

(** C6 (amended): the script creates at most three things on disk.  Running
    the module creates at most the directory [./log_files] and the file
    [./log_files/app.log] in it, and nothing once the logger has its
    handlers; [load_or_prepare] creates at most the cache directory; [main]
    and the functions it calls create nothing themselves (what the statistics
    class writes is the class's own). *)
Theorem what_the_script_creates is_main url ds se uc ce h cfg col w :
  fs_bound {["./log_files"]} {["./log_files/app.log"]} (app_module ext is_main)
  ∧ (w_handlers w = true →
     w_dirs (final (app_module ext is_main w)) = w_dirs w
     ∧ w_files (final (app_module ext is_main w)) = w_files w)
  ∧ fs_bound {[CACHE_DIR ext]} ∅ (load_or_prepare ext ds se uc)
  ∧ fs_frame (main ext url)
  ∧ fs_frame (load_or_prepare_widgets ext ds se uc)
  ∧ fs_frame (display_or_compute_data_measures ext url ce h se ds cfg col)
  ∧ fs_frame (show_column ext h cfg se col).
Proof.
  split; [|split; [|split; [|split; [|split; [|split]]]]].
  - unfold app_module, is_file, getenv, logs_handlers.
    pose proof (fs_frame_main (St:=St) ext).
    pose proof fs_frame_load_dotenv. pose proof fs_frame_logs_addHandlers.
    bound.
  - apply app_module_with_handlers.
  - unfold load_or_prepare, isdir.
    pose proof (fs_frame_new_dstats (St:=St)). bound.
  - apply fs_frame_main.
  - apply fs_frame_load_or_prepare_widgets.
  - apply fs_frame_display_or_compute.
  - apply fs_frame_show_column.
Qed.

End Persist.

(** * The claims on concrete runs *)

(** C1, as stated, fails for [load_or_prepare]: when the labels cannot be
    loaded the exception leaves the loader, and no later metric is called. *)
Lemma load_or_prepare_does_not_isolate :
  ¬ isolates_failures
      (load_or_prepare (collab := scripted flaky_labels)
         (example_ext "" false "") ∅ true true empty_world).
Proof.
  intros H.
  destruct (H [ EvLog WARNING "Creating cache"; EvMkdir "cache_dir" false;
                EvLog WARNING "Using cache";
                EvCall (CNew 0 "cache_dir" ∅ true) false;
                EvLog WARNING "Loading dataset";
                EvCall (CLoadOrPrepare 0 load_or_prepare_dataset) false;
                EvLog WARNING "Loading labels" ]
              0 load_or_prepare_labels [] eq_refl) as [Hr _].
  discriminate Hr.
Qed.

Lemma failure_isolation_in_loaders_witness :
  let o := load_or_prepare_widgets (collab := scripted flaky_labels)
             (example_ext "" false "") ∅ true true empty_world in
  EvCall (CLoadOrPrepare 0 load_or_prepare_labels) true ∈ trace o
  ∧ isolates_failures o
  ∧ lop_calls (trace o) = widget_methods true.
Proof.
  split; [apply (list_elem_of_lookup_2 _ 7); reflexivity|].
  destruct (failure_isolation_in_loaders (collab := scripted flaky_labels)
              (example_ext "" false "") ∅ true true empty_world)
    as [[Hi Hc] _].
  split; [exact Hi | exact (Hc 0 eq_refl)].
Defined.

(** C5, as stated, fails for [load_or_prepare_widgets]: with the cache
    directory present and [show_embeddings] true, the methods it calls are not
    the family of the specification. *)
Lemma widgets_calls_differ_from_family :
  ¬ (∀ m, m ∈ lop_calls
               (trace (load_or_prepare_widgets (collab := scripted all_good)
                         (example_ext "" false "") ∅ true true empty_world))
          ↔ m ∈ spec_family).
Proof.
  intros H. destruct (H load_or_prepare_vocab) as [_ Hin].
  assert (load_or_prepare_vocab ∈ spec_family) as Hv by compute_done.
  apply Hin in Hv. apply (bool_decide_pack _) in Hv. by vm_compute in Hv.
Qed.

Lemma methods_called_by_loaders_witness :
  lop_calls
    (trace (load_or_prepare (collab := scripted all_good)
              (example_ext "" false "") ∅ true true empty_world))
  = spec_family.
Proof.
  destruct (methods_called_by_loaders (collab := scripted all_good)
              (example_ext "" false "") ∅ true true empty_world)
    as [(_ & Hr & Hf) _].
  rewrite <- Hf. exact (Hr eq_refl).
Defined.

(** C9, as stated, fails for [load_or_prepare_widgets]: without a cache
    directory the embeddings are not loaded although [show_embeddings] is
    true. *)
Lemma embeddings_not_gated_by_flag_alone :
  ¬ (load_or_prepare_embeddings
       ∈ lop_calls
           (trace (load_or_prepare_widgets (collab := scripted no_dir)
                     (example_ext "" false "") ∅ true true empty_world))
     ↔ true = true).
Proof.
  intros [_ H]. specialize (H eq_refl).
  apply (bool_decide_pack _) in H. by vm_compute in H.
Qed.

Lemma load_or_prepare_widgets_without_cache_dir_witness :
  let o := load_or_prepare_widgets (collab := scripted no_dir)
             (example_ext "" false "") imdb_args true true empty_world in
  check_cache_dir (Collaborator := scripted no_dir) 0 2 = (Returned false, 3)
  ∧ res o = Returned (0, false) ∧ lop_calls (trace o) = [].
Proof.
  split; [reflexivity|].
  destruct (load_or_prepare_widgets_without_cache_dir
              (collab := scripted no_dir) (example_ext "" false "")
              imdb_args true true empty_world 1 2 3)
    as (Hr & Hc & _); [reflexivity | reflexivity | reflexivity |].
  split; [exact Hr | exact Hc].
Defined.

(** C6, as stated, fails: importing the module on an empty disk leaves the
    directory [./log_files] there. *)
Lemma module_creates_log_directory :
  ¬ fs_frame (app_module (collab := scripted all_good)
                (example_ext "" false "") false).
Proof.
  intros H. destruct (H empty_world) as [Hd _].
  assert ("./log_files" ∈ w_dirs empty_world) as Hin.
  { rewrite <- Hd. compute_done. }
  by apply elem_of_empty in Hin.
Qed.

Lemma compute_request_witness :
  let o := display_or_compute_data_measures (collab := scripted no_dir)
             (example_ext "Ada@Example.org" true "success") None false 0 true
             imdb_args ∅ "" empty_world in
  posts (trace o)
  = [(None, dict_kw {["email" := PStr "Ada@example.org"]} imdb_args)]
  ∧ (EvText msg_computing ∈ trace o ↔ "success" = "success").
Proof.
  destruct (compute_request (collab := scripted no_dir)
              (example_ext "Ada@Example.org" true "success") None 0 true
              imdb_args ∅ "" empty_world "Ada@example.org" "success")
    as (_ & Hp & _ & Hs & _); [reflexivity | reflexivity | reflexivity |].
  split; [exact Hp | exact Hs].
Defined.

Lemma display_with_cache_witness :
  let o := display_or_compute_data_measures (collab := scripted all_good)
             (example_ext "" false "") None true 0 false imdb_args ∅ ""
             empty_world in
  EvWidget expander_header 0 "" ∈ trace o ∧ email_flow (trace o) = [].
Proof.
  destruct (display_with_cache (collab := scripted all_good)
              (example_ext "" false "") None 0 false imdb_args ∅ ""
              empty_world) as (Hc & _ & He).
  split; [exact (proj2 (proj2 (proj2 (Hc eq_refl)))) | exact He].
Defined.



(** C10, as stated, fails when a regular file has the name of the cache
    directory: [CACHE_DIR] is not an existing directory, and the call does
    not create it. *)
Lemma cache_dir_not_always_created :
  let o := load_or_prepare (collab := scripted all_good)
             (example_ext "" false "") ∅ true true file_in_the_way in
  ¬ ("cache_dir" ∉ w_dirs file_in_the_way → "cache_dir" ∈ w_dirs (final o)).
Proof.
  intros o H. specialize (H (not_elem_of_empty _)).
  apply (bool_decide_pack _) in H. by vm_compute in H.
Qed.

Lemma load_or_prepare_establishes_cache_dir_witness :
  "cache_dir" ∈ w_dirs (final (load_or_prepare (collab := scripted all_good)
                                 (example_ext "" false "") ∅ true true
                                 empty_world))
  ∧ (let o := load_or_prepare (collab := scripted all_good) missing_parent ∅
                true true empty_world in
     raised (res o) = true ∧ final o = empty_world).
Proof.
  split.
  - destruct (load_or_prepare_establishes_cache_dir
                (collab := scripted all_good) (example_ext "" false "") ∅ true
                true empty_world) as (_ & _ & H).
    apply H. exists (CNew 0 "cache_dir" ∅ true), false.
    apply (list_elem_of_lookup_2 _ 3). reflexivity.
  - destruct (load_or_prepare_establishes_cache_dir
                (collab := scripted all_good) missing_parent ∅ true true
                empty_world) as (H & _ & _).
    destruct (H (not_elem_of_empty _)) as (exc & rest & Ht & _ & Hx & _).
    assert (exc = true) as -> by (vm_compute in Ht; congruence).
    destruct (Hx eq_refl) as (_ & Hr & Hw).
    split; [exact Hr | exact Hw].
Defined.

Lemma embeddings_gating_witness :
  load_or_prepare_embeddings
    ∈ lop_calls
        (trace (load_or_prepare_widgets (collab := scripted all_good)
                  (example_ext "" false "") ∅ true true empty_world)).
Proof.
  destruct (embeddings_gating (collab := scripted all_good)
              (example_ext "" false "") ∅ true true empty_world 0 ∅ "")
    as ([_ H] & _).
  apply H. split; [reflexivity|]. exists 0. reflexivity.
Defined.

Lemma what_the_script_creates_witness :
  w_dirs (final (app_module (collab := scripted all_good)
                   (example_ext "" false "") true empty_world))
  ⊆ w_dirs empty_world ∪ {["./log_files"]}.
Proof.
  destruct (what_the_script_creates (collab := scripted all_good)
              (example_ext "" false "") true None ∅ true true true 0 ∅ ""
              empty_world)
    as (H & _).
  exact (proj1 (H empty_world)).
Defined.

(** * Further properties of the script *)

(** ** What a computation keeps and what it emits *)

Section Keeps.
Context {St : Type} {collab : Collaborator St}.
Context {X : Type} (f : world St → X).

Lemma keeps_ret {A} (a : A) : keeps f (mret a : M St A).
Proof. by intros w. Qed.

Lemma keeps_bind {A B} (c : M St A) (k : A → M St B) :
  keeps f c → (∀ a, keeps f (k a)) → keeps f (c ≫= k).
Proof.
  intros Hc Hk w. unfold mbind, M_bind, andthen.
  specialize (Hc w). destruct (res (c w)) as [a|e]; simpl; [|done].
  by rewrite (Hk a (final (c w))).
Qed.

Lemma keeps_emit e : keeps f (emit e : M St ()).
Proof. by intros w. Qed.

Lemma keeps_warning msg : keeps f (logs_warning msg : M St ()).
Proof. by intros w. Qed.

Lemma keeps_info msg : keeps f (logs_info msg : M St ()).
Proof. by intros w. Qed.

Lemma keeps_gets {A} (g : world St → A) : keeps f (gets g).
Proof. by intros w. Qed.

Lemma keeps_attr {A} (g : handle → St → A) h : keeps f (attr g h).
Proof. by intros w. Qed.

Lemma keeps_lift {A} (r : result A) : keeps f (lift r : M St A).
Proof. by intros w. Qed.

Lemma keeps_try_except {A} (body handler : M St A) :
  keeps f body → keeps f handler → keeps f (try_except body handler).
Proof.
  intros Hb Hh w. unfold try_except, andthen.
  specialize (Hb w). destruct (res (body w)); simpl; [done|].
  by rewrite (Hh (final (body w))).
Qed.

Lemma keeps_try_except_EmailNotValidError {A} (body handler : M St A) :
  keeps f body → keeps f handler →
  keeps f (try_except_EmailNotValidError body handler).
Proof.
  intros Hb Hh w. unfold try_except_EmailNotValidError, andthen.
  specialize (Hb w). destruct (res (body w)) as [|[]]; simpl; try done.
  by rewrite (Hh (final (body w))).
Qed.

Lemma keeps_when b (c : M St ()) : keeps f c → keeps f (when b c).
Proof. destruct b; [done|]. intros _. apply keeps_ret. Qed.

Lemma keeps_with_col {A} col (c : M St A) :
  keeps f c → keeps f (with_col col c).
Proof. intros Hc w. apply Hc. Qed.

(** Calls into the statistics class change its state and nothing else. *)
Lemma keeps_collab_step {A} c (g : St → result A * St) :
  (∀ s w, f (set_cache s w) = f w) → keeps f (collab_step c g).
Proof. intros Hf w. apply Hf. Qed.

End Keeps.

Ltac keep :=
  repeat first
    [ assumption
    | match goal with
      | H : context [keeps] |- keeps _ _ => simple apply H
      end
    | simple apply keeps_bind; [|intros ?]
    | apply keeps_ret | apply keeps_emit | apply keeps_warning
    | apply keeps_info | apply keeps_gets | apply keeps_attr
    | apply keeps_lift | apply keeps_try_except
    | apply keeps_try_except_EmailNotValidError
    | apply keeps_when | apply keeps_with_col
    | apply keeps_collab_step; done
    | match goal with
      | |- keeps _ (if ?b then _ else _) => destruct b
      | |- keeps _ (let '(_, _) := ?p in _) => destruct p
      | |- keeps _ (match ?p with (_, _) => _ end) => destruct p
      end ].

Section Emits.
Context {St : Type} {collab : Collaborator St}.
Context (P : event → Prop).

Lemma emits_only_ret {A} (a : A) : emits_only P (mret a : M St A).
Proof. intros w. constructor. Qed.

Lemma emits_only_bind {A B} (c : M St A) (k : A → M St B) :
  emits_only P c → (∀ a, emits_only P (k a)) → emits_only P (c ≫= k).
Proof.
  intros Hc Hk w. unfold mbind, M_bind, andthen.
  specialize (Hc w). destruct (res (c w)) as [a|e]; simpl; [|done].
  apply Forall_app. split; [done|apply Hk].
Qed.

Lemma emits_only_emit e : P e → emits_only P (emit e : M St ()).
Proof. intros He w. by repeat constructor. Qed.

Lemma emits_only_warning msg :
  P (EvLog WARNING msg) → emits_only P (logs_warning msg : M St ()).
Proof. apply emits_only_emit. Qed.

Lemma emits_only_info msg :
  P (EvLog INFO msg) → emits_only P (logs_info msg : M St ()).
Proof. apply emits_only_emit. Qed.

Lemma emits_only_gets {A} (g : world St → A) : emits_only P (gets g).
Proof. intros w. constructor. Qed.

Lemma emits_only_attr {A} (g : handle → St → A) h : emits_only P (attr g h).
Proof. intros w. constructor. Qed.

Lemma emits_only_lift {A} (r : result A) : emits_only P (lift r : M St A).
Proof. intros w. constructor. Qed.

Lemma emits_only_collab_step {A} c (g : St → result A * St) :
  (∀ x, P (EvCall c x)) → emits_only P (collab_step c g).
Proof. intros Hc w. by repeat constructor. Qed.

Lemma emits_only_call h m :
  (∀ x, P (EvCall (CLoadOrPrepare h m) x)) → emits_only P (call h m).
Proof. apply emits_only_collab_step. Qed.

Lemma emits_only_try_except {A} (body handler : M St A) :
  emits_only P body → emits_only P handler →
  emits_only P (try_except body handler).
Proof.
  intros Hb Hh w. unfold try_except, andthen.
  specialize (Hb w). destruct (res (body w)); simpl; [done|].
  apply Forall_app. split; [done|apply Hh].
Qed.

Lemma emits_only_try_except_EmailNotValidError {A} (body handler : M St A) :
  emits_only P body → emits_only P handler →
  emits_only P (try_except_EmailNotValidError body handler).
Proof.
  intros Hb Hh w. unfold try_except_EmailNotValidError, andthen.
  specialize (Hb w). destruct (res (body w)) as [|[]]; simpl; try done.
  apply Forall_app. split; [done|apply Hh].
Qed.

Lemma emits_only_when b (c : M St ()) :
  emits_only P c → emits_only P (when b c).
Proof. destruct b; [done|]. intros _. apply emits_only_ret. Qed.

Lemma emits_only_with_col {A} col (c : M St A) :
  P (EvEnter col) → P (EvExit col) → emits_only P c →
  emits_only P (with_col col c).
Proof.
  intros H1 H2 Hc w. unfold with_col. simpl. constructor; [done|].
  apply Forall_app. split; [apply Hc|by repeat constructor].
Qed.

Lemma emits_only_next_handle : emits_only P (next_handle : M St handle).
Proof. intros w. constructor. Qed.

End Emits.

Ltac ev_ok := cbn; first [done | by intros [] | by intros ? | tauto].

Ltac emits :=
  repeat first
    [ assumption
    | match goal with
      | H : context [emits_only] |- emits_only _ _ => simple apply H
      end
    | simple apply emits_only_bind; [|intros ?]
    | apply emits_only_ret | apply emits_only_gets | apply emits_only_attr
    | apply emits_only_lift | apply emits_only_next_handle
    | apply emits_only_emit; ev_ok
    | apply emits_only_warning; ev_ok
    | apply emits_only_info; ev_ok
    | apply emits_only_call; intros ?; ev_ok
    | apply emits_only_collab_step; intros ?; ev_ok
    | apply emits_only_try_except
    | apply emits_only_try_except_EmailNotValidError
    | apply emits_only_when
    | apply emits_only_with_col; [ev_ok|ev_ok|]
    | match goal with
      | |- emits_only _ (if ?b then _ else _) => destruct b
      | |- emits_only _ (let '(_, _) := ?p in _) => destruct p
      | |- emits_only _ (match ?p with (_, _) => _ end) => destruct p
      end ].

Section DisplayExtras.
Context {St : Type} {collab : Collaborator St} (ext : Externals).
Implicit Types (w : world St) (h : handle).

Lemma keeps_show_column {X} (f : world St → X) h cfg se col :
  keeps f (show_column ext h cfg se col).
Proof. unfold show_column, title_str. keep. Qed.

Lemma emits_only_show_column h cfg se col :
  emits_only (λ e, ¬ is_collab_call e) (show_column ext h cfg se col).
Proof. unfold show_column, title_str. emits. Qed.

Lemma keeps_display {X} (f : world St → X) url ce h se args cfg col :
  keeps f (display_or_compute_data_measures ext url ce h se args cfg col).
Proof.
  unfold display_or_compute_data_measures, st_text_input, st_button,
    call_validate_email, post.
  pose proof (keeps_show_column f). keep.
Qed.

Lemma no_calls_display url ce h se args cfg col :
  emits_only (λ e, ¬ is_collab_call e)
    (display_or_compute_data_measures ext url ce h se args cfg col).
Proof.
  unfold display_or_compute_data_measures, st_text_input, st_button,
    call_validate_email, post.
  pose proof emits_only_show_column. emits.
Qed.

(** X1: where it does not hand the statistics object to [show_column] (there
    is no cache, or the statistics are not complete),
    [display_or_compute_data_measures] only reads: however it ends, the world
    is as before (disk, environment, state of the statistics class) and no
    method of the statistics class has been called. *)
Theorem display_only_reads url ce h se args cfg col w :
  let o := display_or_compute_data_measures ext url ce h se args cfg col w in
  ce = false ∨ complete h (w_cache w) = false →
  final o = w ∧ Forall (λ e, ¬ is_collab_call e) (trace o).
Proof.
  intros o Hb. subst o. destruct ce.
  - destruct Hb as [?|Hc]; [done|].
    unfold display_or_compute_data_measures, attr. run. rewrite Hc. finish.
    split; [done|]. repeat constructor. by intros [].
  - split; [apply (keeps_display (λ w, w)) | apply no_calls_display].
Qed.

End DisplayExtras.

Section DisplayEdges.
Context {St : Type} {collab : Collaborator St} (ext : Externals).
Implicit Types (w : world St) (h : handle).

Ltac run_dc :=
  unfold display_or_compute_data_measures, st_text_input, st_button, attr;
  run; rewrite ?run_validate.

(** X2: without a cache the page stays silent until there is something to
    say: with an empty e-mail field and the button not pressed (the first
    render), or with a valid e-mail and the button not pressed, the function
    draws the form, shows no message and sends nothing. *)
Theorem display_silent url dstats se args cfg col w :
  let raw := text_input ext msg_enter_email in
  button ext "Compute Measurements" = false →
  (raw = "" ∧ validate_email ext raw = Raised EmailNotValidError)
  ∨ (∃ norm, validate_email ext raw = Returned norm) →
  display_or_compute_data_measures ext url false dstats se args cfg col w
  = Out (Returned ()) w (form_prefix raw).
Proof.
  intros raw Hb Hv. run_dc. fold raw. rewrite Hb.
  destruct Hv as [[He Hv]|[norm Hv]]; rewrite Hv; cbv beta iota.
  - rewrite He. by finish.
  - by finish.
Qed.

(** X3: when [requests.post] raises, the exception leaves the function: the
    form is not cleared and neither the success nor the failure message is
    shown. *)
Theorem display_post_raises url dstats se args cfg col w norm e :
  let raw := text_input ext msg_enter_email in
  validate_email ext raw = Returned norm →
  button ext "Compute Measurements" = true →
  requests_post ext url (dict_kw {["email" := PStr norm]} args) = Raised e →
  display_or_compute_data_measures ext url false dstats se args cfg col w
  = Out (Raised e) w
        (form_prefix raw
         ++ [EvPost url (dict_kw {["email" := PStr norm]} args)]).
Proof.
  intros raw Hv Hb Hp. run_dc. fold raw. rewrite Hv, Hb. cbv beta iota.
  cbn [when]. rewrite run_post, Hp. by finish.
Qed.

(** X4: only [EmailNotValidError] is handled: any other exception of
    [validate_email] leaves the function right after the validation, with no
    message and no POST. *)
Theorem display_validation_error_propagates url dstats se args cfg col w cls :
  let raw := text_input ext msg_enter_email in
  validate_email ext raw = Raised (OtherError cls) →
  display_or_compute_data_measures ext url false dstats se args cfg col w
  = Out (Raised (OtherError cls)) w (form_prefix raw).
Proof.
  intros raw Hv. run_dc. fold raw. rewrite Hv. by finish.
Qed.

(** X5: a message is shown in the no-cache branch in exactly two situations:
    the POST was made and answered, or the e-mail was rejected while the
    field was not empty or the button was pressed. *)
Theorem display_message_iff url dstats se args cfg col w :
  let raw := text_input ext msg_enter_email in
  let compute := button ext "Compute Measurements" in
  let o := display_or_compute_data_measures ext url false dstats se args cfg
             col w in
  (∃ s, EvText s ∈ trace o) ↔
  (compute = true
   ∧ ∃ norm txt, validate_email ext raw = Returned norm
       ∧ requests_post ext url (dict_kw {["email" := PStr norm]} args)
         = Returned txt)
  ∨ (validate_email ext raw = Raised EmailNotValidError
     ∧ (raw ≠ "" ∨ compute = true)).
Proof.
  intros raw compute o. subst o. run_dc. fold raw compute.
  destruct (validate_email ext raw) as [norm|[|cls]] eqn:Hv; cbv beta iota.
  - destruct compute; cbn [when].
    + rewrite run_post.
      destruct (requests_post ext url _) as [txt|e] eqn:Hp; run; finish.
      * split.
        -- intros _. left. split; [done|]. exists norm, txt. by split.
        -- intros _. destruct (bool_decide (txt = "success")); finish;
             eexists; by apply (list_elem_of_lookup_2 _ 8).
      * split.
        -- intros [s Hin]. exfalso. revert Hin.
           rewrite !elem_of_cons, elem_of_nil.
           by intros [?|[?|[?|[?|[?|[?|[]]]]]]].
        -- intros [(_ & ? & ? & ? & ?)|[? _]]; simplify_eq; congruence.
    + finish. split.
      * intros [s Hin]. exfalso. revert Hin.
        rewrite !elem_of_cons, elem_of_nil.
        by intros [?|[?|[?|[?|[?|[]]]]]].
      * intros [[? _]|[? _]]; simplify_eq.
  - case_bool_decide as He; destruct compute; cbn [orb when]; finish.
    1-3: split; [intros _; right; split; [done|]; by auto|];
         intros _; eexists; by apply (list_elem_of_lookup_2 _ 5).
    split.
    + intros [s Hin]. exfalso. revert Hin.
      rewrite !elem_of_cons, elem_of_nil.
      by intros [?|[?|[?|[?|[?|[]]]]]].
    + intros [[? _]|[_ [?|?]]]; simplify_eq; done.
  - finish. split.
    + intros [s Hin]. exfalso. revert Hin.
      rewrite !elem_of_cons, elem_of_nil.
      by intros [?|[?|[?|[?|[?|[]]]]]].
    + intros [(_ & ? & ? & ? & ?)|[? _]]; simplify_eq; congruence.
Qed.

End DisplayEdges.

Section LoaderExtras.
Context {St : Type} {collab : Collaborator St} (ext : Externals).
Implicit Types (w : world St) (h : handle) (m : lop_method).

(** X6: the constructor call of [load_or_prepare_widgets] is not guarded (the
    [try] around it is commented out): when the constructor raises, the
    loader raises the same exception right there, and no object has been
    made. *)
Theorem widgets_prelude_unguarded ds se uc w e s1 :
  let o := load_or_prepare_widgets ext ds se uc w in
  DatasetStatisticsCacheClass (w_next w) (CACHE_DIR ext) ds uc (w_cache w)
    = (Raised e, s1) →
  res o = Raised e
  ∧ trace o = (if uc then [EvLog WARNING "Using cache"] else [])
              ++ [EvCall (CNew (w_next w) (CACHE_DIR ext) ds uc) true]
  ∧ w_next (final o) = w_next w.
Proof.
  intros o H. subst o. unfold load_or_prepare_widgets, new_dstats.
  destruct uc; cbn [when]; run; by finish.
Qed.

(** X7: [load_or_prepare_widgets] can only raise before it loads anything:
    when it raises, the last thing it did was a call of the constructor, of
    [set_deployment] or of [check_cache_dir] that raised, and no
    [load_or_prepare_*] method has been called. *)
Theorem widgets_raises_before_loading ds se uc w :
  let o := load_or_prepare_widgets ext ds se uc w in
  raised (res o) = true →
  lop_calls (trace o) = []
  ∧ ∃ pre c, trace o = pre ++ [EvCall c true]
             ∧ match c with CLoadOrPrepare _ _ => False | _ => True end.
Proof.
  intros o. subst o.
  destruct (DatasetStatisticsCacheClass (w_next w) (CACHE_DIR ext) ds uc
              (w_cache w)) as [[[]|e1] s1] eqn:E1.
  2:{ intros _. unfold load_or_prepare_widgets, new_dstats.
      destruct uc; cbn [when]; run; finish; (split; [done|]).
      - by eexists [_], _.
      - by eexists [], _. }
  destruct (set_deployment (w_next w) true s1) as [[[]|e2] s2] eqn:E2.
  2:{ intros _. unfold load_or_prepare_widgets, new_dstats,
        call_set_deployment.
      destruct uc; cbn [when]; run; finish; (split; [done|]).
      - by eexists [_; _], _.
      - by eexists [_], _. }
  destruct (check_cache_dir (w_next w) s2) as [[ce|e3] s3] eqn:E3.
  2:{ intros _. unfold load_or_prepare_widgets, new_dstats,
        call_set_deployment, call_check_cache_dir.
      destruct uc; cbn [when]; run; finish; (split; [done|]).
      - by eexists [_; _; _], _.
      - by eexists [_; _], _. }
  by rewrite (widgets_run _ _ _ _ _ _ _ _ _ E1 E2 E3).
Qed.

Lemma isolated_trace_handle h l (s : St) :
  Forall (λ e, ∀ h' m x, e = EvCall (CLoadOrPrepare h' m) x → h' = h)
         (isolated_trace h l s).
Proof.
  revert s. induction l as [|[m msg] l IH]; intros s; [constructor|].
  simpl. constructor; [by intros ??? [= <-]|].
  apply Forall_app. split; [|apply IH].
  destruct (raised _); by repeat constructor.
Qed.

(** X8: in [load_or_prepare_widgets] every [load_or_prepare_*] call is made on
    the object the loader has just constructed, after that object has been
    put in deployment mode and asked for its cache directory. *)
Theorem deployment_before_loading ds se uc w (pre : list event) h m x post :
  let o := load_or_prepare_widgets ext ds se uc w in
  trace o = pre ++ EvCall (CLoadOrPrepare h m) x :: post →
  h = w_next w
  ∧ EvCall (CNew h (CACHE_DIR ext) ds uc) false ∈ pre
  ∧ EvCall (CSetDeployment h true) false ∈ pre
  ∧ EvCall (CCheckCacheDir h) false ∈ pre.
Proof.
  intros o. subst o.
  destruct (DatasetStatisticsCacheClass (w_next w) (CACHE_DIR ext) ds uc
              (w_cache w)) as [[[]|e1] s1] eqn:E1.
  2:{ intros Heq. exfalso. eapply no_lop_call_split; [|exact Heq].
      revert Heq. unfold load_or_prepare_widgets, new_dstats.
      destruct uc; cbn [when]; run; by finish. }
  destruct (set_deployment (w_next w) true s1) as [[[]|e2] s2] eqn:E2.
  2:{ intros Heq. exfalso. eapply no_lop_call_split; [|exact Heq].
      revert Heq. unfold load_or_prepare_widgets, new_dstats,
        call_set_deployment.
      destruct uc; cbn [when]; run; by finish. }
  destruct (check_cache_dir (w_next w) s2) as [[ce|e3] s3] eqn:E3.
  2:{ intros Heq. exfalso. eapply no_lop_call_split; [|exact Heq].
      revert Heq. unfold load_or_prepare_widgets, new_dstats,
        call_set_deployment, call_check_cache_dir.
      destruct uc; cbn [when]; run; by finish. }
  rewrite (widgets_run _ _ _ _ _ _ _ _ _ E1 E2 E3). cbn [trace].
  rewrite app_assoc. intros Heq.
  match type of Heq with ?T1 ++ ?T2 = _ =>
    assert (∃ k, pre = T1 ++ k ∧ T2 = k ++ EvCall (CLoadOrPrepare h m) x :: post)
      as (k & -> & Hk)
  end.
  { apply app_eq_inv in Heq as [(k & Hpre & Hk)|(k & Hpre & Hk)]; [|eauto].
    destruct k as [|e k].
    { exists []. rewrite !app_nil_r in *. by split. }
    exfalso. simplify_eq/=.
    eapply no_lop_call_split; [|exact Hpre]. by destruct uc. }
  destruct ce; [|by destruct k].
  assert (h = w_next w) as ->.
  { pose proof (isolated_trace_handle (w_next w) (widget_metrics se) s3) as Hh.
    rewrite Hk in Hh. apply Forall_app in Hh as [_ Hh].
    apply Forall_cons in Hh as [Hh _]. by eapply Hh. }
  split; [done|].
  repeat split; apply elem_of_app; left; apply elem_of_app; right.
  - by apply (list_elem_of_lookup_2 _ 0).
  - by apply (list_elem_of_lookup_2 _ 1).
  - by apply (list_elem_of_lookup_2 _ 2).
Qed.


(** X9: neither loader loads a metric twice in one run. *)
Theorem metrics_loaded_once ds se uc w :
  NoDup (lop_calls (trace (load_or_prepare_widgets ext ds se uc w)))
  ∧ NoDup (lop_calls (trace (load_or_prepare ext ds se uc w))).
Proof.
  split.
  - destruct (widgets_outcome ext ds se uc w) as [[_ ->]|(ce & _ & -> & _)];
      [constructor|].
    destruct ce, se; compute_done.
  - destruct (load_or_prepare_audit_parts ext ds se uc w) as (_ & [k Hk] & _).
    assert (NoDup (load_or_prepare_methods se)) as Hn
      by (destruct se; compute_done).
    rewrite Hk in Hn. by apply NoDup_app in Hn as [? _].
Qed.

(** X10: in both loaders the dataset comes first: the first [load_or_prepare_*]
    call of a run, if there is one, is [load_or_prepare_dataset]. *)
Theorem dataset_loaded_first ds se uc w m :
  (head (lop_calls (trace (load_or_prepare_widgets ext ds se uc w))) = Some m
   → m = load_or_prepare_dataset)
  ∧ (head (lop_calls (trace (load_or_prepare ext ds se uc w))) = Some m
     → m = load_or_prepare_dataset).
Proof.
  split.
  - destruct (widgets_outcome ext ds se uc w) as [[_ ->]|(ce & _ & -> & _)];
      [done|].
    destruct ce, se; simpl; congruence.
  - destruct (load_or_prepare_audit_parts ext ds se uc w) as (_ & [k Hk] & _).
    destruct (lop_calls (trace (load_or_prepare ext ds se uc w)))
      as [|m' l]; [done|].
    simpl. intros [= ->]. destruct se; simpl in Hk; by injection Hk.
Qed.

(** X11: what [load_or_prepare] has created stays when it fails afterwards:
    if [mkdir(CACHE_DIR)] returned and the constructor then raises, the
    loader raises the constructor's exception and leaves the new, empty cache
    directory behind. *)
Theorem load_or_prepare_leaves_cache_dir ds se uc w e s1 :
  let o := load_or_prepare ext ds se uc w in
  EvMkdir (CACHE_DIR ext) false ∈ trace o →
  DatasetStatisticsCacheClass (w_next w) (CACHE_DIR ext) ds uc (w_cache w)
    = (Raised e, s1) →
  res o = Raised e
  ∧ (CACHE_DIR ext ∉ w_dirs w)
  ∧ w_dirs (final o) = {[CACHE_DIR ext]} ∪ w_dirs w
  ∧ trace o = [EvLog WARNING "Creating cache"; EvMkdir (CACHE_DIR ext) false]
              ++ (if uc then [EvLog WARNING "Using cache"] else [])
              ++ [EvCall (CNew (w_next w) (CACHE_DIR ext) ds uc) true].
Proof.
  intros o Hin He. subst o. revert Hin.
  unfold load_or_prepare, isdir, new_dstats. run.
  destruct (bool_decide (CACHE_DIR ext ∈ w_dirs w)) eqn:Hd;
    cbn [when negb]; run.
  - destruct uc; cbn [when]; run; finish.
    all: rewrite !elem_of_cons, elem_of_nil; intros Hin; exfalso.
    all: repeat (destruct Hin as [Hin|Hin]; [discriminate|]); done.
  - apply bool_decide_eq_false in Hd.
    destruct (bool_decide (CACHE_DIR ext ∈ w_files w)) eqn:Hfile;
      [|destruct (os_refuses ext (w_dirs w) (w_files w) (CACHE_DIR ext))
          as [cls|] eqn:Ho].
    + rewrite (run_mkdir_raised ext (CACHE_DIR ext))
        by (by rewrite bool_decide_eq_false_2, Hfile).
      finish. rewrite !elem_of_cons, elem_of_nil. intros Hin; exfalso.
      repeat (destruct Hin as [Hin|Hin]; [discriminate|]); done.
    + rewrite (run_mkdir_refused ext (CACHE_DIR ext) _ _ cls)
        by (done || by rewrite bool_decide_eq_false_2, Hfile).
      finish. rewrite !elem_of_cons, elem_of_nil. intros Hin; exfalso.
      repeat (destruct Hin as [Hin|Hin]; [discriminate|]); done.
    + rewrite (run_mkdir_out ext (CACHE_DIR ext))
        by (done || by rewrite bool_decide_eq_false_2, Hfile).
      intros _. destruct uc; cbn [when]; run; by finish.
Qed.

End LoaderExtras.


Section MainExtras.
Context {St : Type} {collab : Collaborator St} (ext : Externals).
Implicit Types (w : world St) (h : handle).

Lemma run_bind_returned {A B} (c : M St A) (k : A → M St B) w a :
  res (c w) = Returned a →
  (c ≫= k) w = prepend (trace (c w)) (k a (final (c w))).
Proof. intros E. unfold mbind, M_bind. by rewrite E. Qed.

Lemma run_bind_raises {A B} (c : M St A) (k : A → M St B) w e :
  res (c w) = Raised e →
  (c ≫= k) w = Out (Raised e) (final (c w)) (trace (c w)).
Proof. intros E. unfold mbind, M_bind. by rewrite E. Qed.


Lemma emits_only_new_dstats P (d : string) args uc :
  (∀ h x, P (EvCall (CNew h d args uc) x)) →
  emits_only (St:=St) P (new_dstats d args uc).
Proof.
  intros HP. unfold new_dstats.
  apply emits_only_bind; [apply emits_only_gets|intros h].
  apply emits_only_bind; [by apply emits_only_collab_step|intros _].
  apply emits_only_next_handle.
Qed.

Lemma main_event_widgets url ds se :
  emits_only (main_event (CACHE_DIR ext) url)
    (load_or_prepare_widgets ext ds se true).
Proof.
  unfold load_or_prepare_widgets, call_set_deployment, call_check_cache_dir.
  pose proof (emits_only_new_dstats (main_event (CACHE_DIR ext) url)
                (CACHE_DIR ext) ds true (λ _ _, conj eq_refl eq_refl)).
  emits.
Qed.

Lemma main_event_show_column url h cfg se col :
  emits_only (main_event (CACHE_DIR ext) url) (show_column ext h cfg se col).
Proof. unfold show_column, title_str. emits. Qed.

Lemma main_event_display url ce h se args cfg col :
  emits_only (main_event (CACHE_DIR ext) url)
    (display_or_compute_data_measures ext url ce h se args cfg col).
Proof.
  unfold display_or_compute_data_measures, st_text_input, st_button,
    call_validate_email, post.
  pose proof (main_event_show_column url). emits.
Qed.

Lemma main_event_main url :
  emits_only (main_event (CACHE_DIR ext) url) (main ext url).
Proof.
  unfold main, list_datasets_wrapper, st_sidebar_checkbox,
    st_sidebar_selection.
  pose proof (main_event_widgets url). pose proof (main_event_display url).
  emits.
Qed.

(** X12: whatever the user selects and whatever the libraries answer, [main]
    builds its statistics objects over [CACHE_DIR] with [use_cache=True],
    puts them in deployment mode, sends POSTs only to [SERVER_URL], and
    neither creates a directory nor opens a file. *)
Theorem main_events url w :
  Forall (main_event (CACHE_DIR ext) url) (trace (main ext url w)).
Proof. apply main_event_main. Qed.

(** X13: when the list of datasets cannot be fetched, [main] raises at once:
    not even the title is drawn. *)
Theorem main_without_dataset_list url w e :
  list_datasets ext = Raised e →
  main ext url w = Out (Raised e) w [EvListDatasets].
Proof.
  intros H. unfold main, list_datasets_wrapper. run. rewrite H.
  by erewrite run_bind_raised by reflexivity.
Qed.










End MainExtras.

Section ModuleExtras.
Context {St : Type} {collab : Collaborator St} (ext : Externals).
Implicit Types (w : world St) (h : handle).

Lemma emits_only_mkdir P p :
  (∀ x, P (EvMkdir p x)) → emits_only (St:=St) P (mkdir ext p).
Proof.
  intros HP w. unfold mkdir.
  destruct (_ || _); [|destruct (os_refuses _ _ _ _)]; by repeat constructor.
Qed.

Lemma emits_only_Path_mkdir_exist_ok P p :
  (∀ x, P (EvMkdir p x)) → emits_only (St:=St) P (Path_mkdir_exist_ok ext p).
Proof.
  intros HP w. unfold Path_mkdir_exist_ok.
  destruct (bool_decide _); [constructor|by apply emits_only_mkdir].
Qed.

Lemma emits_only_FileHandler P p :
  (∀ x, P (EvOpen p x)) → emits_only (St:=St) P (FileHandler ext p).
Proof.
  intros HP w. unfold FileHandler.
  destruct (bool_decide _); [|destruct (os_refuses _ _ _ _)];
    by repeat constructor.
Qed.

Lemma emits_only_logs_addHandlers P :
  emits_only (St:=St) P logs_addHandlers.
Proof. intros w. constructor. Qed.

Lemma emits_only_impl {A} (P Q : event → Prop) (c : M St A) :
  (∀ e, P e → Q e) → emits_only P c → emits_only Q c.
Proof. intros HPQ Hc w. eapply Forall_impl; [apply Hc|done]. Qed.

Lemma posts_to_main url : emits_only (posts_to url) (main ext url).
Proof.
  eapply emits_only_impl; [|apply main_event_main].
  by intros [].
Qed.

Lemma keeps_next_handle {X} (f : world St → X) :
  (∀ w, f (World (w_dirs w) (w_files w) (w_environ w) (w_handlers w)
                 (S (w_next w)) (w_cache w)) = f w) →
  keeps f next_handle.
Proof. intros Hf w. apply Hf. Qed.

Lemma keeps_handlers_main url : keeps (St:=St) w_handlers (main ext url).
Proof.
  assert (∀ d a u, keeps (St:=St) w_handlers (new_dstats d a u)) as Hn.
  { intros. unfold new_dstats. keep. by apply keeps_next_handle. }
  assert (∀ ds se uc,
            keeps w_handlers (load_or_prepare_widgets ext ds se uc)) as Hw.
  { intros. unfold load_or_prepare_widgets, call_set_deployment,
      call_check_cache_dir, call. keep. }
  unfold main, list_datasets_wrapper, st_sidebar_checkbox,
    st_sidebar_selection.
  pose proof (keeps_display ext (w_handlers (St:=St))). keep.
Qed.

(** The set-up of the logger either raises, having emitted nothing but
    events of the disk, or leaves the logger with its handlers. *)
Lemma logging_setup_outcome w :
  let c := when (negb (w_handlers w))
             (Path_mkdir_exist_ok ext "./log_files";;
              FileHandler ext "./log_files/app.log";;
              logs_addHandlers) in
  (res (c w) = Returned () → w_handlers (final (c w)) = true)
  ∧ Forall is_fs_event (trace (c w)).
Proof.
  destruct (w_handlers w) eqn:Hw; cbn [when negb]; [by split|].
  unfold mbind, M_bind, andthen, Path_mkdir_exist_ok, mkdir, FileHandler,
    logs_addHandlers.
  destruct (bool_decide ("./log_files" ∈ w_dirs w)); simpl.
  - destruct (bool_decide ("./log_files/app.log" ∈ w_dirs w)); simpl;
      [split; by repeat constructor|].
    destruct (os_refuses _ _ _ "./log_files/app.log"); simpl;
      split; by repeat constructor.
  - destruct (bool_decide ("./log_files" ∈ w_files w)); simpl;
      [split; by repeat constructor|].
    destruct (os_refuses _ _ _ "./log_files"); simpl;
      [split; by repeat constructor|].
    destruct (bool_decide ("./log_files/app.log" ∈ _)); simpl;
      [split; by repeat constructor|].
    destruct (os_refuses _ _ _ "./log_files/app.log"); simpl;
      split; by repeat constructor.
Qed.

(** X16: every POST of a run of the script goes to the URL found under
    [SERVER_URL] in the environment once [.env] has been loaded; a value that
    was in the environment before wins over the one of the file. *)
Theorem server_url_from_environment is_main w u d :
  EvPost u d ∈ trace (app_module ext is_main w) →
  u = SERVER_URL_of ext w
  ∧ (∀ v, w_environ w !! "SERVER_URL" = Some v → u = Some v).
Proof.
  intros Hin.
  assert (u = SERVER_URL_of ext w) as ->.
  { revert Hin. unfold app_module, is_file, getenv, logs_handlers,
      SERVER_URL_of. run.
    destruct (bool_decide (".env" ∈ w_files w)); cbn [when];
      rewrite ?run_load_dotenv; run; cbn [w_handlers w_environ].
    all: match goal with
         | |- context [mbind ?k ?c ?w'] =>
             match k with
             | context [main ext ?url] =>
                 assert (emits_only (posts_to url) (mbind k c)) as Hr
                   by (pose proof (posts_to_main url);
                       pose proof (emits_only_logs_addHandlers (posts_to url));
                       pose proof (emits_only_Path_mkdir_exist_ok
                                     (posts_to url) "./log_files" (λ _, I));
                       pose proof (emits_only_FileHandler
                                     (posts_to url) "./log_files/app.log"
                                     (λ _, I));
                       emits);
                 specialize (Hr w')
             end
         end.
    all: unfold prepend; cbn [trace app]; intros Hin.
    all: repeat (apply elem_of_cons in Hin as [Hin|Hin]; [discriminate|]).
    all: rewrite Forall_forall in Hr; exact (Hr _ Hin). }
  split; [done|]. intros v Hv. unfold SERVER_URL_of.
  destruct (bool_decide _); [|done]. by apply lookup_union_Some_l.
Qed.

(** X17: the logger is set up once.  After a run that has come as far as
    configuring the page, the logger has its handlers, and a further run of
    the script (streamlit runs it again at every interaction) creates no
    directory and no file. *)
Theorem second_run_creates_nothing m1 m2 w :
  let o1 := app_module ext m1 w in
  EvPageConfig ∈ trace o1 →
  let o2 := app_module ext m2 (final o1) in
  w_handlers (final o1) = true
  ∧ w_dirs (final o2) = w_dirs (final o1)
  ∧ w_files (final o2) = w_files (final o1).
Proof.
  intros o1 Hin o2.
  assert (w_handlers (final o1) = true) as Hh.
  { revert Hin. subst o1 o2.
    unfold app_module, is_file, getenv, logs_handlers. run.
    destruct (bool_decide (".env" ∈ w_files w)); cbn [when];
      rewrite ?run_load_dotenv; run; cbn [w_handlers w_environ].
    all: match goal with
         | |- context [mbind ?k ?c ?w'] =>
             pose proof (logging_setup_outcome w') as Hs;
             cbn [w_handlers] in Hs;
             destruct (res (c w')) as [[]|e] eqn:Hr;
             [ rewrite (run_bind_returned _ _ _ _ Hr)
             | rewrite (run_bind_raises _ _ _ _ Hr) ]
         end.
    all: unfold prepend; cbn [trace final app]; intros Hin.
    all: try (exfalso;
              repeat (apply elem_of_cons in Hin as [Hin|Hin];
                      [discriminate|]);
              destruct Hs as [_ Hs]; rewrite Forall_forall in Hs;
              by apply Hs in Hin).
    all: destruct Hs as [Hs _]; specialize (Hs eq_refl).
    all: match goal with
         | |- w_handlers (final (?r ?w'')) = true =>
             assert (keeps w_handlers r) as Hk
               by (pose proof (keeps_handlers_main); keep);
             by rewrite (Hk w'')
         end. }
  split; [done|]. by apply app_module_with_handlers.
Qed.

End ModuleExtras.

(** ** The further properties on concrete runs *)

Lemma display_only_reads_witness :
  final (display_or_compute_data_measures (collab := scripted no_dir)
           (example_ext "Ada@Example.org" true "success") None false 0 true
           imdb_args ∅ "" empty_world)
  = empty_world.
Proof.
  apply (display_only_reads (collab := scripted no_dir)
           (example_ext "Ada@Example.org" true "success") None false 0 true
           imdb_args ∅ "" empty_world).
  left. reflexivity.
Defined.

Lemma display_silent_witness :
  display_or_compute_data_measures (collab := scripted no_dir)
    (example_ext "" false "") None false 0 true imdb_args ∅ "" empty_world
  = Out (Returned ()) empty_world (form_prefix "").
Proof.
  apply (display_silent (collab := scripted no_dir) (example_ext "" false "")
           None 0 true imdb_args ∅ "" empty_world);
    [reflexivity | left; split; reflexivity].
Defined.

Lemma display_post_raises_witness :
  res (display_or_compute_data_measures (collab := scripted no_dir)
         (scenario accept_all (Raised (OtherError "ConnectionError"))
            (Returned ["imdb"]) "ada@example.org" true false)
         None false 0 true imdb_args ∅ "" empty_world)
  = Raised (OtherError "ConnectionError").
Proof.
  rewrite (display_post_raises (collab := scripted no_dir)
             (scenario accept_all (Raised (OtherError "ConnectionError"))
                (Returned ["imdb"]) "ada@example.org" true false)
             None 0 true imdb_args ∅ "" empty_world "ada@example.org"
             (OtherError "ConnectionError"));
    reflexivity.
Defined.

Lemma display_validation_error_propagates_witness :
  res (display_or_compute_data_measures (collab := scripted no_dir)
         (scenario (λ _, Raised (OtherError "TypeError")) (Returned "success")
            (Returned ["imdb"]) "ada@example.org" true false)
         None false 0 true imdb_args ∅ "" empty_world)
  = Raised (OtherError "TypeError").
Proof.
  rewrite (display_validation_error_propagates (collab := scripted no_dir)
             (scenario (λ _, Raised (OtherError "TypeError"))
                (Returned "success") (Returned ["imdb"]) "ada@example.org"
                true false)
             None 0 true imdb_args ∅ "" empty_world "TypeError");
    reflexivity.
Defined.

Lemma widgets_prelude_unguarded_witness :
  res (load_or_prepare_widgets (collab := scripted broken_constructor)
         (example_ext "" false "") ∅ true true empty_world)
  = Raised (OtherError "TypeError").
Proof.
  apply (widgets_prelude_unguarded (collab := scripted broken_constructor)
           (example_ext "" false "") ∅ true true empty_world
           (OtherError "TypeError") 1).
  reflexivity.
Defined.

Lemma widgets_raises_before_loading_witness :
  lop_calls
    (trace (load_or_prepare_widgets (collab := scripted broken_constructor)
              (example_ext "" false "") ∅ true true empty_world)) = [].
Proof.
  apply (widgets_raises_before_loading (collab := scripted broken_constructor)
           (example_ext "" false "") ∅ true true empty_world).
  reflexivity.
Defined.

Lemma deployment_before_loading_witness :
  let t := trace (load_or_prepare_widgets (collab := scripted all_good)
                    (example_ext "" false "") ∅ false false empty_world) in
  EvCall (CSetDeployment 0 true) false ∈ take 3 t.
Proof.
  intros t.
  apply (deployment_before_loading (collab := scripted all_good)
           (example_ext "" false "") ∅ false false empty_world (take 3 t) 0
           load_or_prepare_dataset false (drop 4 t)).
  reflexivity.
Defined.

Lemma load_or_prepare_leaves_cache_dir_witness :
  let o := load_or_prepare (collab := scripted broken_constructor)
             (example_ext "" false "") ∅ true true empty_world in
  res o = Raised (OtherError "TypeError")
  ∧ w_dirs (final o) = {["cache_dir"]} ∪ ∅.
Proof.
  destruct (load_or_prepare_leaves_cache_dir
              (collab := scripted broken_constructor)
              (example_ext "" false "") ∅ true true empty_world
              (OtherError "TypeError") 1) as (Hr & _ & Hd & _);
    [apply (list_elem_of_lookup_2 _ 1); reflexivity | reflexivity |].
  split; [exact Hr | exact Hd].
Defined.

Lemma main_without_dataset_list_witness :
  trace (main (collab := scripted all_good)
           (scenario accept_all (Returned "success")
              (Raised (OtherError "ConnectionError")) "" false false)
           None empty_world)
  = [EvListDatasets].
Proof.
  rewrite (main_without_dataset_list (collab := scripted all_good)
             (scenario accept_all (Returned "success")
                (Raised (OtherError "ConnectionError")) "" false false)
             None empty_world (OtherError "ConnectionError"));
    reflexivity.
Defined.



Lemma server_url_from_environment_witness :
  Some "https://compute.example"
  = SERVER_URL_of
      (scenario accept_all (Returned "success") (Returned ["imdb"])
         "ada@example.org" true false)
      configured_world.
Proof.
  destruct (server_url_from_environment (collab := scripted no_dir)
              (scenario accept_all (Returned "success") (Returned ["imdb"])
                 "ada@example.org" true false)
              true configured_world (Some "https://compute.example")
              (dict_kw {["email" := PStr "ada@example.org"]} imdb_args))
    as [H _]; [|exact H].
  apply (list_elem_of_lookup_2 _ 19). reflexivity.
Defined.

Lemma second_run_creates_nothing_witness :
  let o1 := app_module (collab := scripted all_good) (example_ext "" false "")
              true empty_world in
  w_handlers (final o1) = true
  ∧ w_dirs (final (app_module (collab := scripted all_good)
                     (example_ext "" false "") true (final o1)))
    = w_dirs (final o1).
Proof.
  destruct (second_run_creates_nothing (collab := scripted all_good)
              (example_ext "" false "") true true empty_world)
    as (Hh & Hd & _).
  - apply (list_elem_of_lookup_2 _ 2). reflexivity.
  - split; [exact Hh | exact Hd].
Defined.
